(** * Caffe2 workspace: net registry and plan execution

    A shallow embedding of [caffe2/core/workspace.cc]: the blob store with
    its read-through parent, the net registry ([net_map_]), the
    continuation test of an execution step and the recursive step
    executor, followed by the properties of the execution engine.

    Conventions of the embedding.
    - A [std::map] is a [gmap]; a [unique_ptr] that may be null is an
      [option].
    - A fatal [CHECK], a thrown [CAFFE_ENFORCE] and a null-pointer
      dereference are the three ways a call can fail to return; they are
      the [Failure]s of the [Result] type.
    - Calls that mutate the workspace are state transformers
      [Workspace -> Result A * Workspace].
    - A net is an external collaborator: its [Run] is a transformer of the
      blob store that reports success as a [bool].
    - The worker threads of a concurrent fan-out are not part of the
      embedding: a step that reaches the threaded branch yields
      [ThreadedFanOut].  The reporter thread is represented by its start
      and its join (see [Reporter_start] and [Reporter_join]). *)

From Stdlib Require Import ZArith List Lia.
From stdpp Require Import base gmap strings list.

Set Warnings "-register-all".
Local Open Scope Z_scope.

(** ** Blobs *)

(** Modelled from the spec: [TensorCPU] is declared in a header that is
    not among the sources.  The continuation test asks a tensor for its
    number of elements, whether its element type is [bool], and its first
    element. *)
Inductive TensorCPU :=
| BoolTensor (data : list bool)
| OtherTensor (elements : nat).

Definition size (t : TensorCPU) : Z :=
  match t with
  | BoolTensor data => Z.of_nat (length data)
  | OtherTensor n => Z.of_nat n
  end.

Definition IsType_bool (t : TensorCPU) : bool :=
  match t with BoolTensor _ => true | OtherTensor _ => false end.

(** Modelled from the spec: [Blob] is declared in blob.h, which is not
    among the sources.  A blob holds a [TensorCPU] or something else;
    [Get<TensorCPU>()] on a blob of another type is a failed CHECK. *)
Inductive Blob :=
| TensorBlob (t : TensorCPU)
| OtherBlob.

(** The blob side of a workspace: [blob_map_] and the optional parent
    [shared_]. *)
Inductive BlobStore :=
  MkBlobStore { blob_map_ : gmap string Blob; shared_ : option BlobStore }.

(** Modelled from the spec: [Workspace::HasBlob] is declared in
    workspace.h, which is not among the sources; the existence check is
    parent-aware. *)
Fixpoint HasBlob (s : BlobStore) (name : string) : bool :=
  match s with
  | MkBlobStore m sh =>
      match m !! name with
      | Some _ => true
      | None => match sh with Some p => HasBlob p name | None => false end
      end
  end.

(** [Workspace::GetBlob]: local entries first, then the parent;
    [None] is the null pointer. *)
Fixpoint GetBlob (s : BlobStore) (name : string) : option Blob :=
  match s with
  | MkBlobStore m sh =>
      match m !! name with
      | Some b => Some b
      | None =>
          match sh with
          | Some p => if HasBlob p name then GetBlob p name else None
          | None => None
          end
      end
  end.

(** ** Nets *)

(** A constructed net ([NetBase]): its declared external outputs, the
    outcome of [Verify()] and the effect of [Run()] on the blobs.  What a
    net remembers from one run to the next is taken to live in blobs. *)
Record NetBase := {
  external_output : list string;
  Verify : bool;
  Run : BlobStore -> bool * BlobStore
}.

(** [NetDef], as far as the workspace reads it: the optional name.  The
    rest of the definition is the [body] that only the net constructor
    interprets. *)
Record NetDef := {
  net_name : option string;
  body : list string
}.

(** ** Execution steps and plans *)

(** [ExecutionStep]: an optional field of the message is an [option]
    ([has_num_iter()] is [Some]); [num_iter] is the [int64] that
    caffe2.proto declares. *)
Inductive ExecutionStep :=
  MkExecutionStep {
    name : string;
    substep : list ExecutionStep;
    network : list string;
    num_iter : option Z;
    criteria_network : option string;
    report_net : option string;
    report_interval : option Z;
    concurrent_substeps : bool
  }.

Record PlanDef := {
  plan_network : list NetDef;
  execution_step : list ExecutionStep
}.

(** ** Workspace state *)

(** What the engine does that can be observed from outside: the entry
    into a step (its [LOG(INFO)] line), a [Run()] on the executing
    thread, the start of a reporter thread and a [Run()] made by it. *)
Inductive Event :=
| StepEntered (step_name : string)
| NetRun (net : string)
| ReporterStarted (net : string)
| ReporterRun (net : string).

(** The workspace: blobs, the net registry, and the history of events
    (the history is instrumentation, not a member of the class). *)
Record Workspace := {
  blobs : BlobStore;
  net_map_ : gmap string (option NetBase);
  history : list Event
}.

Definition set_blobs (b : BlobStore) (ws : Workspace) : Workspace :=
  {| blobs := b; net_map_ := net_map_ ws; history := history ws |}.

Definition set_net_map (m : gmap string (option NetBase)) (ws : Workspace)
  : Workspace :=
  {| blobs := blobs ws; net_map_ := m; history := history ws |}.

Definition record (e : Event) (ws : Workspace) : Workspace :=
  {| blobs := blobs ws; net_map_ := net_map_ ws;
     history := history ws ++ [e] |}.

(** ** Results and the state monad *)

Inductive Failure :=
| CheckFailed        (* a fatal CHECK: the process aborts *)
| EnforceNotMet      (* CAFFE_ENFORCE throws *)
| NullDereference    (* a member call through a null pointer *)
| SignedOverflow.    (* ++iter on the largest int *)

Inductive Result (A : Type) :=
| Returns (a : A)
| Dies (f : Failure)
| ThreadedFanOut
| OutOfFuel.

Arguments Returns {A} a.
Arguments Dies {A} f.
Arguments ThreadedFanOut {A}.
Arguments OutOfFuel {A}.

Definition M (A : Type) : Type := Workspace -> Result A * Workspace.

Definition ret {A} (a : A) : M A := fun ws => (Returns a, ws).

Definition bind {A B} (m : M A) (k : A -> M B) : M B :=
  fun ws =>
    match m ws with
    | (Returns a, ws') => k a ws'
    | (Dies f, ws') => (Dies f, ws')
    | (ThreadedFanOut, ws') => (ThreadedFanOut, ws')
    | (OutOfFuel, ws') => (OutOfFuel, ws')
    end.

Definition die {A} (f : Failure) : M A := fun ws => (Dies f, ws).

Definition say (e : Event) : M unit := fun ws => (Returns tt, record e ws).

Declare Scope ws_scope.
Delimit Scope ws_scope with ws.
Notation "x <- m ;; k" := (bind m (fun x => k))
  (at level 100, m at next level, right associativity) : ws_scope.
Notation "m ;;; k" := (bind m (fun _ => k))
  (at level 100, right associativity) : ws_scope.
Local Open Scope ws_scope.

(** [net->Run()] through a possibly null pointer, on the executing
    thread.  [key] is the registry name the pointer was taken from. *)
Definition run_ptr (key : string) (p : option NetBase) : M bool :=
  fun ws =>
    match p with
    | None => (Dies NullDereference, ws)
    | Some net =>
        let '(ok, b) := Run net (blobs ws) in
        (Returns ok, record (NetRun key) (set_blobs b ws))
    end.

(** ** The net registry *)

(** [Workspace::GetNet]: null when the name is absent, else the stored
    pointer. *)
Definition GetNet (ws : Workspace) (n : string) : option NetBase :=
  match net_map_ ws !! n with
  | None => None
  | Some p => p
  end.

(** [Workspace::DeleteNet]. *)
Definition DeleteNet (n : string) : M unit :=
  fun ws =>
    match net_map_ ws !! n with
    | Some _ => (Returns tt, set_net_map (delete n (net_map_ ws)) ws)
    | None => (Returns tt, ws)
    end.

(** [Workspace::RunNet]. *)
Definition RunNet (n : string) : M bool :=
  fun ws =>
    match net_map_ ws !! n with
    | None => (Returns false, ws)
    | Some p => run_ptr n p ws
    end.

Section NetConstruction.

(** [caffe2::CreateNet(net_def, ws)], the external net constructor: it
    may create blobs in the workspace and yields a net or null. *)
Variable construct : NetDef -> BlobStore -> option NetBase * BlobStore.

(** [Workspace::CreateNet]; the returned pointer is [None] for
    [nullptr]. *)
Definition CreateNet (net_def : NetDef) : M (option NetBase) :=
  fun ws =>
    match net_name net_def with
    | None => (Dies CheckFailed, ws)
    | Some n =>
        let ws1 :=
          match net_map_ ws !! n with
          | Some _ => set_net_map (delete n (net_map_ ws)) ws
          | None => ws
          end in
        let '(p, b) := construct net_def (blobs ws1) in
        let ws2 := set_net_map (<[n := p]> (net_map_ ws1)) (set_blobs b ws1) in
        match p with
        | None => (Returns None, set_net_map (delete n (net_map_ ws2)) ws2)
        | Some net =>
            if Verify net then (Returns (Some net), ws2)
            else (Returns None, set_net_map (delete n (net_map_ ws2)) ws2)
        end
    end.

(** [Workspace::RunNetOnce]: the transient net is verified and run
    through the pointer the constructor returned, without a null
    test. *)
Definition RunNetOnce (net_def : NetDef) : M bool :=
  fun ws =>
    let '(p, b) := construct net_def (blobs ws) in
    let ws1 := set_blobs b ws in
    match p with
    | None => (Dies NullDereference, ws1)
    | Some net =>
        if Verify net then
          let '(ok, b') := Run net (blobs ws1) in
          let ws2 :=
            record (NetRun (default EmptyString (net_name net_def)))
                   (set_blobs b' ws1) in
          (Returns ok, ws2)
        else (Returns false, ws1)
    end.

End NetConstruction.

(** ** The continuation test *)

(** [ShouldContinue]: the caller's predicate on the iteration index. *)
Definition ShouldContinue : Type := Z -> bool.

(** The closure of the criteria branch: run the criteria net (its outcome
    is not looked at), fetch the output blob, take it as a [TensorCPU],
    check that it has one element of type [bool] and compare that element
    with zero. *)
Definition criteria_test (criteria_key : string) (criteria_network : NetBase)
    (criteria_output : string) (i : Z) : M bool :=
  run_ptr criteria_key (Some criteria_network) ;;;
  fun ws =>
    match GetBlob (blobs ws) criteria_output with
    | None => (Dies NullDereference, ws)
    | Some OtherBlob => (Dies CheckFailed, ws)
    | Some (TensorBlob t) =>
        if negb (size t =? 1) then (Dies CheckFailed, ws)
        else if negb (IsType_bool t) then (Dies CheckFailed, ws)
        else
          match t with
          | BoolTensor (b :: _) => (Returns b, ws)
          | _ => (Dies CheckFailed, ws)
          end
    end.

(** The narrowing of a 64-bit integer into an [int]: the low 32 bits,
    read as a two's complement number (what the compilers of the
    project do, and what the language prescribes since C++20). *)
Definition to_int (z : Z) : Z :=
  (z + 2147483648) mod 4294967296 - 2147483648.

(** [getContinuationTest]: the CHECKs are made when the test is built,
    against the registry of that moment.  [num_iter] is a 64-bit field
    of the message; [int iterations = ... step.num_iter() ...] narrows
    it. *)
Definition getContinuationTest (ws : Workspace) (step : ExecutionStep)
  : Result (Z -> M bool) :=
  match criteria_network step, num_iter step with
  | Some _, Some _ => Dies CheckFailed
  | None, has_num_iter =>
      let iterations :=
        to_int (match has_num_iter with Some n => n | None => 1 end) in
      Returns (fun i => ret (i <? iterations))
  | Some cn, None =>
      match GetNet ws cn with
      | None => Dies CheckFailed
      | Some criteria_network =>
          match external_output criteria_network with
          | [criteria_output] =>
              Returns (criteria_test cn criteria_network criteria_output)
          | _ => Dies CheckFailed
          end
      end
  end.

(** ** The reporter *)

(** The state of a [Reporter] object: no thread, or a thread started on a
    net pointer (which the caller may have passed as null). *)
Definition Reporter : Type := option (string * option NetBase).

(** The reporter set-up at the head of [ExecuteStepRecursive].  A missing
    report net is only logged; [net_map_[report_net]] then default-inserts
    a null entry, and the thread is started on that null pointer. *)
Definition Reporter_start (step : ExecutionStep) : M Reporter :=
  match report_net step with
  | None => ret None
  | Some rn =>
      match report_interval step with
      | None => die EnforceNotMet
      | Some _ =>
          fun ws =>
            let '(p, m) :=
              match net_map_ ws !! rn with
              | Some p => (p, net_map_ ws)
              | None => (None, <[rn := None]> (net_map_ ws))
              end in
            (Returns (Some (rn, p)),
             record (ReporterStarted rn) (set_net_map m ws))
      end
  end.

(** [~Reporter]: nothing to do without a thread; otherwise signal and
    join.  The worker's do-while runs the net once more after every wait,
    so by the time the join returns the thread has called [net->Run()] at
    least once.  The thread also calls it after every interval that
    passes while the step is at work; those calls depend on time and are
    not in the embedding, which keeps the one call that is certain (its
    outcome is only logged).  This is why the properties that say in
    which workspace a step ends are stated for steps without a report
    net, and those for steps with one speak of the value returned and of
    the runs of the executing thread only. *)
Definition Reporter_join (r : Reporter) : M unit :=
  match r with
  | None => ret tt
  | Some (rn, None) => die NullDereference
  | Some (rn, Some net) =>
      fun ws =>
        let '(_, b) := Run net (blobs ws) in
        (Returns tt, record (ReporterRun rn) (set_blobs b ws))
  end.

(** The scope of the [Reporter] local: the destructor runs when the body
    returns and when an exception unwinds through it, not when the
    process has died. *)
Definition scoped (r : Reporter) (body : M bool) : M bool :=
  fun ws =>
    match body ws with
    | (Returns b, ws') =>
        match Reporter_join r ws' with
        | (Returns _, ws'') => (Returns b, ws'')
        | (Dies f, ws'') => (Dies f, ws'')
        | (ThreadedFanOut, ws'') => (ThreadedFanOut, ws'')
        | (OutOfFuel, ws'') => (OutOfFuel, ws'')
        end
    | (Dies EnforceNotMet, ws') =>
        match Reporter_join r ws' with
        | (Returns _, ws'') => (Dies EnforceNotMet, ws'')
        | (Dies f, ws'') => (Dies f, ws'')
        | (ThreadedFanOut, ws'') => (ThreadedFanOut, ws'')
        | (OutOfFuel, ws'') => (OutOfFuel, ws'')
        end
    | other => other
    end.

(** ** The step executor *)

(** The largest [int]. *)
Definition INT_MAX : Z := 2147483647.

(** [for (int iter = ...; shouldContinue(iter); ++iter) { body }]: the
    body yields [false] where the source leaves the function with
    [return false]; when the test fails the loop is left and the function
    returns [true].  The counter is an [int]: incrementing it past
    [INT_MAX] is undefined. *)
Fixpoint for_loop (fuel : nat) (shouldContinue : Z -> M bool)
    (body : Z -> M bool) (iter : Z) : M bool :=
  match fuel with
  | O => fun ws => (OutOfFuel, ws)
  | S fuel' =>
      c <- shouldContinue iter ;;
      if c then
        ok <- body iter ;;
        if ok then
          if iter <? INT_MAX then for_loop fuel' shouldContinue body (iter + 1)
          else die SignedOverflow
        else ret false
      else ret true
  end.

(** The leaf loop body: [for (NetBase* network : networks)]. *)
Fixpoint run_networks (networks : list (string * option NetBase)) : M bool :=
  match networks with
  | [] => ret true
  | (key, p) :: rest =>
      ok <- run_ptr key p ;;
      if ok then run_networks rest else ret false
  end.

(** Collecting the networks of a leaf step: [None] at the first name
    that is not in the registry. *)
Fixpoint collect_networks (m : gmap string (option NetBase))
    (names : list string) : option (list (string * option NetBase)) :=
  match names with
  | [] => Some []
  | n :: rest =>
      match m !! n with
      | None => None
      | Some p =>
          match collect_networks m rest with
          | None => None
          | Some l => Some ((n, p) :: l)
          end
      end
  end.

(** The [worker] lambda run by the calling thread: it claims the substeps
    in index order and stops at the first failure.  [got_failure] is only
    written by the worker itself, so the [substepShouldContinue] handed to
    a substep reads the value the flag has when the substep is entered.
    The result is the final value of [got_failure]. *)
Fixpoint worker (rec : ExecutionStep -> ShouldContinue -> M bool)
    (substeps : list ExecutionStep)
    (externalShouldContinue : ShouldContinue) (got_failure : bool) : M bool :=
  match substeps with
  | [] => ret got_failure
  | s :: rest =>
      if got_failure then ret got_failure
      else
        let substepShouldContinue : ShouldContinue :=
          fun iter => negb got_failure && externalShouldContinue iter in
        ok <- rec s substepShouldContinue ;;
        worker rec rest externalShouldContinue (if ok then got_failure else true)
  end.

(** The [shouldContinue] lambda: the caller's predicate first, and the
    step's own test only when the caller lets the step go on. *)
Definition combined (externalShouldContinue : ShouldContinue)
    (netShouldContinue : Z -> M bool) : Z -> M bool :=
  fun iter =>
    if externalShouldContinue iter then netShouldContinue iter else ret false.

(** One iteration of a step with substeps: the calling thread alone runs
    the worker unless the step asks for concurrency and has more than one
    substep; the iteration is left with [return false] when a failure was
    seen. *)
Definition substep_round (rec : ExecutionStep -> ShouldContinue -> M bool)
    (step : ExecutionStep) (externalShouldContinue : ShouldContinue) : M bool :=
  if negb (concurrent_substeps step) || (length (substep step) <=? 1)%nat
  then
    got_failure <- worker rec (substep step) externalShouldContinue false ;;
    ret (negb got_failure)
  else fun ws => (ThreadedFanOut, ws).

(** What follows the reporter set-up, inside the scope of the reporter. *)
Definition step_body (rec : ExecutionStep -> ShouldContinue -> M bool)
    (fuel : nat) (step : ExecutionStep)
    (externalShouldContinue : ShouldContinue) : M bool :=
  fun ws =>
    match getContinuationTest ws step with
    | Returns netShouldContinue =>
        let shouldContinue := combined externalShouldContinue netShouldContinue in
        if negb (length (substep step) =? 0)%nat then
          for_loop fuel shouldContinue
            (fun _ => substep_round rec step externalShouldContinue) 0 ws
        else
          match collect_networks (net_map_ ws) (network step) with
          | None => (Returns false, ws)
          | Some networks =>
              for_loop fuel shouldContinue (fun _ => run_networks networks) 0 ws
          end
    | Dies f => (Dies f, ws)
    | ThreadedFanOut => (ThreadedFanOut, ws)
    | OutOfFuel => (OutOfFuel, ws)
    end.

(** [Workspace::ExecuteStepRecursive].  One unit of fuel is spent on
    entering a step and one on every iteration of a loop. *)
Fixpoint ExecuteStepRecursive (fuel : nat) (step : ExecutionStep)
    (externalShouldContinue : ShouldContinue) : M bool :=
  match fuel with
  | O => fun ws => (OutOfFuel, ws)
  | S fuel' =>
      say (StepEntered (name step)) ;;;
      if negb ((length (substep step) =? 0)%nat
               || (length (network step) =? 0)%nat)
      then ret false
      else
        reporter <- Reporter_start step ;;
        scoped reporter
          (step_body (ExecuteStepRecursive fuel') fuel' step
                     externalShouldContinue)
  end.

(** ** Running a plan *)

Section Plan.

Variable construct : NetDef -> BlobStore -> option NetBase * BlobStore.

(** [for (const NetDef& net_def : plan.network())]. *)
Fixpoint create_nets (defs : list NetDef) : M bool :=
  match defs with
  | [] => ret true
  | net_def :: rest =>
      p <- CreateNet construct net_def ;;
      match p with
      | None => ret false
      | Some _ => create_nets rest
      end
  end.

(** [for (const ExecutionStep& step : plan.execution_step())]. *)
Fixpoint run_steps (fuel : nat) (steps : list ExecutionStep)
    (shouldContinue : ShouldContinue) : M bool :=
  match steps with
  | [] => ret true
  | step :: rest =>
      ok <- ExecuteStepRecursive fuel step shouldContinue ;;
      if ok then run_steps fuel rest shouldContinue else ret false
  end.

(** [Workspace::RunPlan]. *)
Definition RunPlan (fuel : nat) (plan : PlanDef)
    (shouldContinue : ShouldContinue) : M bool :=
  if (length (execution_step plan) =? 0)%nat then ret true
  else
    created <- create_nets (plan_network plan) ;;
    if created then run_steps fuel (execution_step plan) shouldContinue
    else ret false.

End Plan.

(** ** Sample nets and workspaces *)

Module Sample.

Definition no_blobs : BlobStore := MkBlobStore ∅ None.

(** A net that always succeeds and leaves the blobs alone. *)
Definition good : NetBase :=
  {| external_output := []; Verify := true; Run := fun b => (true, b) |}.

(** A net that always fails. *)
Definition bad : NetBase :=
  {| external_output := []; Verify := true; Run := fun b => (false, b) |}.

Definition always : ShouldContinue := fun _ => true.

Definition leaf (n : string) (nets : list string) : ExecutionStep :=
  MkExecutionStep n [] nets None None None None false.

Definition ws_ab : Workspace :=
  {| blobs := no_blobs;
     net_map_ := <["a"%string := Some good]> (<["b"%string := Some bad]> ∅);
     history := [] |}.

(** A criteria net: it moves the head of the [bool] tensor in the blob
    "budget" to the blob "go", and writes [false] once the budget is
    used up. *)
Definition countdown : NetBase :=
  {| external_output := ["go"%string];
     Verify := true;
     Run := fun b =>
       match blob_map_ b !! "budget"%string with
       | Some (TensorBlob (BoolTensor (v :: rest))) =>
           (true,
            MkBlobStore
              (<["go"%string := TensorBlob (BoolTensor [v])]>
                 (<["budget"%string := TensorBlob (BoolTensor rest)]>
                    (blob_map_ b)))
              (shared_ b))
       | _ =>
           (true,
            MkBlobStore
              (<["go"%string := TensorBlob (BoolTensor [false])]> (blob_map_ b))
              (shared_ b))
       end |}.

Definition ws_crit : Workspace :=
  {| blobs :=
       MkBlobStore
         {["budget"%string := TensorBlob (BoolTensor [true; true; false])]}
         None;
     net_map_ :=
       <["a"%string := Some good]>
         (<["b"%string := Some bad]> {["crit"%string := Some countdown]});
     history := [] |}.

(** A leaf step that repeats [nets] as long as the net "crit" says so. *)
Definition while_crit (nets : list string) : ExecutionStep :=
  MkExecutionStep "loop" [] nets None (Some "crit"%string) None None false.

(** Three leaf substeps run one after the other; the second one runs
    the failing net. *)
Definition seq3 : ExecutionStep :=
  MkExecutionStep "seq"
    [leaf "s1" ["a"%string]; leaf "s2" ["b"%string]; leaf "s3" ["a"%string]]
    [] None None None None false.

(** A net constructor: it builds [good] or [bad] when the body of the
    definition asks for it, and yields null otherwise. *)
Definition build (net_def : NetDef) (b : BlobStore)
  : option NetBase * BlobStore :=
  match body net_def with
  | ["good"%string] => (Some good, b)
  | ["bad"%string] => (Some bad, b)
  | _ => (None, b)
  end.

Definition ws_empty : Workspace :=
  {| blobs := no_blobs; net_map_ := ∅; history := [] |}.

(** A plan with one net "a" and one leaf step that runs it once and
    names a report net "r" that the plan does not define. *)
Definition plan_r : PlanDef :=
  {| plan_network := [ {| net_name := Some "a"%string; body := ["good"%string] |} ];
     execution_step :=
       [ MkExecutionStep "s" [] ["a"%string] None None
                         (Some "r"%string) (Some 1) false ] |}.

End Sample.


(** ** Vocabulary of the properties *)

(** The nets run by the executing thread, oldest first. *)
Fixpoint net_runs (h : list Event) : list string :=
  match h with
  | [] => []
  | NetRun n :: rest => n :: net_runs rest
  | _ :: rest => net_runs rest
  end.

(** The fixed iteration count of a step without a criteria network: the
    [int] that the executor makes of [num_iter], 1 when no count is
    given. *)
Definition iterations (step : ExecutionStep) : Z :=
  to_int (match num_iter step with Some n => n | None => 1 end).

(** The reporter set-up goes through and leaves the registry alone: no
    report net, or an interval and a report net that is registered. *)
Definition reporter_ready (ws : Workspace) (step : ExecutionStep) : bool :=
  match report_net step with
  | None => true
  | Some rn =>
      match report_interval step, GetNet ws rn with
      | Some _, Some _ => true
      | _, _ => false
      end
  end.

(** The continuation test of the step can be built. *)
Definition test_ready (ws : Workspace) (step : ExecutionStep) : bool :=
  match getContinuationTest ws step with
  | Returns _ => true
  | _ => false
  end.

(** The workspace in which the body of a step starts, and the reporter
    it runs under. *)
Definition entry (step : ExecutionStep) (ws : Workspace) : Workspace :=
  snd (Reporter_start step (record (StepEntered (name step)) ws)).

Definition reporter_of (step : ExecutionStep) (ws : Workspace) : Reporter :=
  match fst (Reporter_start step (record (StepEntered (name step)) ws)) with
  | Returns r => r
  | _ => None
  end.

(** The workspace after the reporter of a finished step has been joined. *)
Definition joined (r : Reporter) (ws : Workspace) : Workspace :=
  snd (Reporter_join r ws).





(** [n] iterations of a loop complete: the test holds, the body does not
    leave the function and the counter can be incremented, [n] times in a
    row from index [iter]. *)
Inductive completes (shouldContinue body : Z -> M bool)
  : nat -> Z -> Workspace -> Workspace -> Prop :=
| completes_0 iter ws : completes shouldContinue body 0 iter ws ws
| completes_S n iter ws ws1 ws2 ws3 :
    shouldContinue iter ws = (Returns true, ws1) ->
    body iter ws1 = (Returns true, ws2) ->
    iter < INT_MAX ->
    completes shouldContinue body n (iter + 1) ws2 ws3 ->
    completes shouldContinue body (S n) iter ws ws3.

(** The steps of a list are executed one after the other and each of
    them returns [true]. *)
Inductive all_return_true (rec : ExecutionStep -> ShouldContinue -> M bool)
    (ext : ShouldContinue)
  : list ExecutionStep -> Workspace -> Workspace -> Prop :=
| art_nil ws : all_return_true rec ext [] ws ws
| art_cons s rest ws ws1 ws2 :
    rec s ext ws = (Returns true, ws1) ->
    all_return_true rec ext rest ws1 ws2 ->
    all_return_true rec ext (s :: rest) ws ws2.

(** The registry invariant: every name of the registry holds a net, and
    that net passed [Verify]. *)
Definition registry_sound (m : gmap string (option NetBase)) : Prop :=
  forall n p, m !! n = Some p -> exists net, p = Some net /\ Verify net = true.

(** A reporter whose thread, if any, has a net to run. *)
Definition joinable (r : Reporter) : bool :=
  match r with
  | Some (_, None) => false
  | _ => true
  end.


(** The workspace after the executing thread has run the nets [names],
    which left the blobs [b]. *)
Definition after_runs (ws : Workspace) (b : BlobStore) (names : list string)
  : Workspace :=
  {| blobs := b; net_map_ := net_map_ ws;
     history := history ws ++ map NetRun names |}.

(** The body of the loop of a step: a round of substeps, or a pass over
    the collected networks; [None] when a network of a leaf step is not
    in the registry. *)
Definition rounds (rec : ExecutionStep -> ShouldContinue -> M bool)
    (step : ExecutionStep) (ext : ShouldContinue) (ws : Workspace)
  : option (Z -> M bool) :=
  if negb (length (substep step) =? 0)%nat then
    Some (fun _ => substep_round rec step ext)
  else
    match collect_networks (net_map_ ws) (network step) with
    | None => None
    | Some networks => Some (fun _ => run_networks networks)
    end.

(** The step has substeps or networks, not both. *)
Definition shape_ok (step : ExecutionStep) : bool :=
  (length (substep step) =? 0)%nat || (length (network step) =? 0)%nat.

(** What the output blob says once the criteria net has been run on the
    blobs [b]: a boolean when the blob is a tensor of one [bool]. *)
Definition criteria_says (criteria_network : NetBase) (criteria_output : string)
    (b : BlobStore) : option bool :=
  match GetBlob (snd (Run criteria_network b)) criteria_output with
  | Some (TensorBlob (BoolTensor [v])) => Some v
  | _ => None
  end.


(** [m] leaves every entry of the registry as it finds it (it may add
    entries). *)
Definition keeps_entries {A} (m : M A) : Prop :=
  forall ws k p,
    net_map_ ws !! k = Some p -> net_map_ (snd (m ws)) !! k = Some p.

(** ** The rest of the workspace *)

(** [Workspace::Blobs]: the local names, then the names the parent lists.
    The local names come in the iteration order of [blob_map_]; the
    embedding takes the order of [map_to_list], and the properties of
    [Blobs] below speak of membership and repetition only. *)
Fixpoint Blobs (s : BlobStore) : list string :=
  match s with
  | MkBlobStore m sh =>
      (map_to_list m).*1 ++ match sh with Some p => Blobs p | None => [] end
  end.

(** [Workspace::CreateBlob]: a blob is made only when [HasBlob] finds
    none, locally or in a parent; the result is [GetBlob(name)].  The
    fresh [Blob()] holds no tensor. *)
Definition CreateBlob (name : string) (s : BlobStore)
  : option Blob * BlobStore :=
  let s' :=
    if HasBlob s name then s
    else MkBlobStore (<[name := OtherBlob]> (blob_map_ s)) (shared_ s) in
  (GetBlob s' name, s').

(** An operator ([OperatorBase]) and its definition, as far as
    [RunOperatorOnce] looks at them. *)
Record OperatorBase := {
  op_Run : BlobStore -> bool * BlobStore
}.

Record OperatorDef := {
  op_type : string;
  op_body : list string
}.

Section OperatorConstruction.

(** [CreateOperator(op_def, ws)], the external operator constructor. *)
Variable construct_op :
  OperatorDef -> BlobStore -> option OperatorBase * BlobStore.

(** [Workspace::RunOperatorOnce]. *)
Definition RunOperatorOnce (op_def : OperatorDef) : M bool :=
  fun ws =>
    let '(p, b) := construct_op op_def (blobs ws) in
    let ws1 := set_blobs b ws in
    match p with
    | None => (Returns false, ws1)
    | Some op =>
        let '(ok, b') := op_Run op (blobs ws1) in
        (Returns ok, set_blobs b' ws1)
    end.

End OperatorConstruction.

(** A step-by-step relation between registries is respected by a call
    when the registry the call leaves is related to the one it found. *)
Definition respects {A}
    (R : gmap string (option NetBase) -> gmap string (option NetBase) -> Prop)
    (m : M A) : Prop :=
  forall ws, R (net_map_ ws) (net_map_ (snd (m ws))).

(** The only change from [m] to [m']: names that were absent may have
    got a null entry. *)
Definition only_null_added (m m' : gmap string (option NetBase)) : Prop :=
  forall k,
    m' !! k = m !! k \/ (m !! k = None /\ m' !! k = Some None).

(** The step with its flag [concurrent_substeps] set to [c]. *)
Definition set_concurrent (c : bool) (step : ExecutionStep) : ExecutionStep :=
  MkExecutionStep (name step) (substep step) (network step) (num_iter step)
                  (criteria_network step) (report_net step)
                  (report_interval step) c.

(** Further sample data. *)
Module Fixture.

(** A store with a local blob "x" and a parent that holds "x" and "y". *)
Definition parent : BlobStore :=
  MkBlobStore
    (<["x"%string := TensorBlob (BoolTensor [true])]>
       {["y"%string := OtherBlob]})
    None.

Definition child : BlobStore :=
  MkBlobStore {["x"%string := OtherBlob]} (Some parent).

(** An operator constructor that knows the operator types "ok" and
    "fail". *)
Definition build_op (op_def : OperatorDef) (b : BlobStore)
  : option OperatorBase * BlobStore :=
  if String.eqb (op_type op_def) "ok" then
    (Some {| op_Run := fun b => (true, b) |}, b)
  else if String.eqb (op_type op_def) "fail" then
    (Some {| op_Run := fun b => (false, b) |}, b)
  else (None, b).

(** A net that passes construction but not [Verify]. *)
Definition unverified : NetBase :=
  {| external_output := []; Verify := false; Run := fun b => (true, b) |}.

Definition build (net_def : NetDef) (b : BlobStore)
  : option NetBase * BlobStore :=
  match body net_def with
  | ["good"%string] => (Some Sample.good, b)
  | ["bad"%string] => (Some Sample.bad, b)
  | ["unverified"%string] => (Some unverified, b)
  | _ => (None, b)
  end.

Definition def (n kind : string) : NetDef :=
  {| net_name := Some n; body := [kind] |}.



(** A criteria net whose [Run] reports failure after it has written
    [true] to its output blob. *)
Definition failing_go : NetBase :=
  {| external_output := ["go"%string];
     Verify := true;
     Run := fun b =>
       (false,
        MkBlobStore
          (<["go"%string := TensorBlob (BoolTensor [true])]> (blob_map_ b))
          (shared_ b)) |}.

Definition ws_failing_go : Workspace :=
  {| blobs := Sample.no_blobs;
     net_map_ :=
       <["a"%string := Some Sample.good]> {["crit"%string := Some failing_go]};
     history := [] |}.

(** Two leaf substeps run one after the other; the second names a report
    net and gives no interval. *)
Definition seq_throw : ExecutionStep :=
  MkExecutionStep "seq"
    [Sample.leaf "s1" ["a"%string];
     MkExecutionStep "s2" [] ["a"%string] None None (Some "a"%string) None false;
     Sample.leaf "s3" ["a"%string]]
    [] None None None None false.

End Fixture.

(** * Properties *)

Example sample_leaf_run :
  let r := ExecuteStepRecursive 5 (Sample.leaf "s" ["a"; "a"; "b"; "a"])%string
             Sample.always Sample.ws_ab in
  fst r = Returns false /\
  history (snd r) = [StepEntered "s"; NetRun "a"; NetRun "a"; NetRun "b"]%string.
Proof. vm_compute. split; reflexivity. Qed.


(** ** Unfolding the executor *)

Lemma ExecuteStepRecursive_unfold fuel step ext ws :
  ExecuteStepRecursive (S fuel) step ext ws =
  let ws0 := record (StepEntered (name step)) ws in
  if negb ((length (substep step) =? 0)%nat || (length (network step) =? 0)%nat)
  then (Returns false, ws0)
  else
    bind (Reporter_start step)
         (fun reporter =>
            scoped reporter
              (step_body (ExecuteStepRecursive fuel) fuel step ext)) ws0.
Proof.
  cbn [ExecuteStepRecursive]. unfold bind at 1, say. cbn beta iota.
  destruct (negb _); reflexivity.
Qed.

(** ** Shape validation *)

(** C3: a step whose substep list and network list are both non-empty is
    rejected by the shape test: the call returns [false], and all it has
    done is write the log line of the step entry; the blobs and the
    registry are the caller's, no net was run, no substep was entered and
    no reporter was started. *)
Theorem C3_substeps_and_networks_rejected fuel step ext ws :
  substep step <> [] ->
  network step <> [] ->
  ExecuteStepRecursive (S fuel) step ext ws
  = (Returns false, record (StepEntered (name step)) ws).
Proof.
  intros Hs Hn. rewrite ExecuteStepRecursive_unfold. cbn zeta.
  destruct (substep step) as [|s0 ss]; [congruence|].
  destruct (network step) as [|n0 ns]; [congruence|].
  reflexivity.
Qed.

Lemma C3_witness :
  ExecuteStepRecursive 1
    (MkExecutionStep "mixed" [Sample.leaf "inner" ["a"]] ["a"]
                     None None (Some "a") (Some 1) false)%string
    Sample.always Sample.ws_ab
  = (Returns false, record (StepEntered "mixed") Sample.ws_ab).
Proof.
  apply C3_substeps_and_networks_rejected; cbn; discriminate.
Defined.

(** ** The history *)

Lemma net_runs_app h1 h2 : net_runs (h1 ++ h2) = net_runs h1 ++ net_runs h2.
Proof.
  induction h1 as [|e h1 IH]; [reflexivity|].
  destruct e; cbn; rewrite IH; reflexivity.
Qed.

Lemma net_runs_NetRun l : net_runs (map NetRun l) = l.
Proof. induction l as [|n l IH]; cbn; [|rewrite IH]; reflexivity. Qed.

(** ** The reporter *)

Lemma Reporter_start_ready step ws ws0 :
  reporter_ready ws step = true ->
  net_map_ ws0 = net_map_ ws ->
  exists r ws1,
    Reporter_start step ws0 = (Returns r, ws1)
    /\ joinable r = true
    /\ blobs ws1 = blobs ws0
    /\ net_map_ ws1 = net_map_ ws0
    /\ net_runs (history ws1) = net_runs (history ws0).
Proof.
  unfold reporter_ready, Reporter_start, GetNet. intros H Hm.
  destruct (report_net step) as [rn|].
  - destruct (report_interval step) as [itv|]; [|discriminate].
    rewrite Hm. destruct (net_map_ ws !! rn) as [[net|]|]; try discriminate.
    eexists _, _. split; [reflexivity|]. cbn.
    rewrite net_runs_app, app_nil_r. auto.
  - exists None, ws0. unfold ret. auto.
Qed.

Lemma joined_net_runs r ws : net_runs (history (joined r ws)) = net_runs (history ws).
Proof.
  unfold joined, Reporter_join. destruct r as [[rn [net|]]|]; cbn; try reflexivity.
  destruct (Run net (blobs ws)) as [ok b]. cbn.
  rewrite net_runs_app, app_nil_r. reflexivity.
Qed.

Lemma joined_net_map r ws : net_map_ (joined r ws) = net_map_ ws.
Proof.
  unfold joined, Reporter_join. destruct r as [[rn [net|]]|]; cbn; try reflexivity.
  destruct (Run net (blobs ws)) as [ok b]. reflexivity.
Qed.

Lemma scoped_returns r body ws b ws' :
  joinable r = true ->
  body ws = (Returns b, ws') ->
  scoped r body ws = (Returns b, joined r ws').
Proof.
  intros Hj Hb. unfold scoped, joined. rewrite Hb.
  destruct r as [[rn [net|]]|]; cbn in *; try discriminate; try reflexivity.
  destruct (Run net (blobs ws')) as [ok b']. reflexivity.
Qed.


(** ** Running a list of nets *)













(** ** Leaf steps with a fixed iteration count *)


Lemma to_int_fits z : -2147483648 <= z <= 2147483647 -> to_int z = z.
Proof.
  intros H. unfold to_int. rewrite Z.mod_small by lia. lia.
Qed.


Lemma getContinuationTest_fixed ws step :
  criteria_network step = None ->
  getContinuationTest ws step = Returns (fun i => ret (i <? iterations step)).
Proof.
  intros H. unfold getContinuationTest, iterations. rewrite H.
  destruct (num_iter step); reflexivity.
Qed.






(** ** Loops *)

Lemma for_loop_completes sc body n iter ws wsn :
  completes sc body n iter ws wsn ->
  forall fuel,
    for_loop (n + fuel) sc body iter ws
    = for_loop fuel sc body (iter + Z.of_nat n) wsn.
Proof.
  induction 1 as [iter ws|n iter ws ws1 ws2 ws3 Hsc Hbody Hlt _ IH]; intros fuel.
  - cbn. rewrite Z.add_0_r. reflexivity.
  - cbn [Nat.add for_loop]. unfold bind at 1. rewrite Hsc.
    unfold bind at 1. rewrite Hbody.
    apply Z.ltb_lt in Hlt. rewrite Hlt. rewrite IH.
    f_equal. lia.
Qed.

Lemma for_loop_stop sc body fuel iter ws ws' :
  sc iter ws = (Returns false, ws') ->
  for_loop (S fuel) sc body iter ws = (Returns true, ws').
Proof. intros H. cbn. unfold bind. rewrite H. reflexivity. Qed.

Lemma for_loop_fail sc body fuel iter ws ws1 ws2 :
  sc iter ws = (Returns true, ws1) ->
  body iter ws1 = (Returns false, ws2) ->
  for_loop (S fuel) sc body iter ws = (Returns false, ws2).
Proof. intros H1 H2. cbn. unfold bind. rewrite H1, H2. reflexivity. Qed.

Lemma for_loop_stops_after sc body n fuel ws wsn ws' :
  completes sc body n 0 ws wsn ->
  sc (Z.of_nat n) wsn = (Returns false, ws') ->
  (n < fuel)%nat ->
  for_loop fuel sc body 0 ws = (Returns true, ws').
Proof.
  intros Hc Hs Hf. replace fuel with (n + S (fuel - S n))%nat by lia.
  rewrite (for_loop_completes _ _ _ _ _ _ Hc). apply for_loop_stop. exact Hs.
Qed.

Lemma for_loop_fails_after sc body n fuel ws wsn ws1 ws2 :
  completes sc body n 0 ws wsn ->
  sc (Z.of_nat n) wsn = (Returns true, ws1) ->
  body (Z.of_nat n) ws1 = (Returns false, ws2) ->
  (n < fuel)%nat ->
  for_loop fuel sc body 0 ws = (Returns false, ws2).
Proof.
  intros Hc Hs Hb Hf. replace fuel with (n + S (fuel - S n))%nat by lia.
  rewrite (for_loop_completes _ _ _ _ _ _ Hc). eapply for_loop_fail; eauto.
Qed.

(** ** The frame of a step *)

Lemma step_body_rounds rec fuel step ext ws :
  step_body rec fuel step ext ws =
  match getContinuationTest ws step with
  | Returns test =>
      match rounds rec step ext ws with
      | Some body => for_loop fuel (combined ext test) body 0 ws
      | None => (Returns false, ws)
      end
  | Dies f => (Dies f, ws)
  | ThreadedFanOut => (ThreadedFanOut, ws)
  | OutOfFuel => (OutOfFuel, ws)
  end.
Proof.
  unfold step_body, rounds.
  destruct (getContinuationTest ws step); try reflexivity.
  destruct (negb _); [reflexivity|].
  destruct (collect_networks _ _); reflexivity.
Qed.

Lemma getContinuationTest_net_map ws ws' step :
  net_map_ ws' = net_map_ ws ->
  getContinuationTest ws' step = getContinuationTest ws step.
Proof.
  intros H. unfold getContinuationTest, GetNet. rewrite H. reflexivity.
Qed.

Lemma rounds_net_map rec step ext ws ws' :
  net_map_ ws' = net_map_ ws ->
  rounds rec step ext ws' = rounds rec step ext ws.
Proof. intros H. unfold rounds. rewrite H. reflexivity. Qed.

Lemma entry_ready step ws :
  reporter_ready ws step = true ->
  Reporter_start step (record (StepEntered (name step)) ws)
  = (Returns (reporter_of step ws), entry step ws)
  /\ joinable (reporter_of step ws) = true
  /\ blobs (entry step ws) = blobs ws
  /\ net_map_ (entry step ws) = net_map_ ws
  /\ net_runs (history (entry step ws)) = net_runs (history ws).
Proof.
  intros H.
  destruct (Reporter_start_ready step ws (record (StepEntered (name step)) ws) H eq_refl)
    as (r & ws1 & Hstart & Hj & Hb & Hm & Hh).
  unfold reporter_of, entry. rewrite Hstart. cbn [fst snd].
  repeat split; try assumption.
  rewrite Hh. cbn. rewrite net_runs_app, app_nil_r. reflexivity.
Qed.

Lemma exec_ready fuel step ext ws :
  shape_ok step = true ->
  reporter_ready ws step = true ->
  ExecuteStepRecursive (S fuel) step ext ws
  = scoped (reporter_of step ws)
           (step_body (ExecuteStepRecursive fuel) fuel step ext)
           (entry step ws).
Proof.
  intros Hshape Hrep. rewrite ExecuteStepRecursive_unfold. cbn zeta.
  unfold shape_ok in Hshape. rewrite Hshape. cbn [negb].
  destruct (entry_ready step ws Hrep) as (Hstart & _).
  unfold bind. rewrite Hstart. reflexivity.
Qed.

Lemma scoped_None body ws : scoped None body ws = body ws.
Proof.
  unfold scoped. destruct (body ws) as [[b|[]| |] w]; reflexivity.
Qed.

Lemma exec_no_report fuel step ext ws :
  shape_ok step = true ->
  report_net step = None ->
  ExecuteStepRecursive (S fuel) step ext ws
  = step_body (ExecuteStepRecursive fuel) fuel step ext
              (record (StepEntered (name step)) ws).
Proof.
  intros Hshape Hrn. rewrite ExecuteStepRecursive_unfold. cbn zeta.
  unfold shape_ok in Hshape. rewrite Hshape. cbn [negb].
  unfold bind, Reporter_start. rewrite Hrn. unfold ret.
  apply scoped_None.
Qed.

(** ** Sequential substeps *)

Lemma worker_all_true rec ext pre rest ws ws1 :
  all_return_true rec ext pre ws ws1 ->
  worker rec (pre ++ rest) ext false ws = worker rec rest ext false ws1.
Proof.
  induction 1 as [ws|s pre ws ws1 ws2 Hs _ IH]; [reflexivity|].
  cbn [app worker negb andb]. unfold bind at 1.
  change (fun iter : Z => ext iter) with ext. rewrite Hs. exact IH.
Qed.

Lemma worker_first_failure rec ext s rest ws ws' :
  rec s ext ws = (Returns false, ws') ->
  worker rec (s :: rest) ext false ws = (Returns true, ws').
Proof.
  intros Hs. cbn [worker negb andb]. unfold bind at 1.
  change (fun iter : Z => ext iter) with ext. rewrite Hs.
  destruct rest; reflexivity.
Qed.

Lemma sequential_round rec step ext :
  concurrent_substeps step = false \/ length (substep step) = 1%nat ->
  substep_round rec step ext
  = bind (worker rec (substep step) ext false)
         (fun got_failure => ret (negb got_failure)).
Proof.
  intros H. unfold substep_round.
  destruct H as [-> | ->]; [reflexivity|].
  cbn. rewrite orb_true_r. reflexivity.
Qed.

(** C4: a step with substeps that is executed sequentially (the flag
    [concurrent_substeps] is off, or there is one substep).  A round runs
    the substeps in declared order, each from the workspace the one before
    it left; when all of them return [true] the round completes.  When,
    after [J] completed iterations, the substeps before [sk] return [true]
    and [sk] returns [false], the step returns [false] in the workspace
    that [sk] left: none of the substeps after [sk] is entered and no
    further iteration is started.  The step itself has no report net. *)
Theorem C4_sequential_substeps fuel step ext ws :
  substep step <> [] ->
  network step = [] ->
  concurrent_substeps step = false \/ length (substep step) = 1%nat ->
  report_net step = None ->
  (forall w w',
      all_return_true (ExecuteStepRecursive fuel) ext (substep step) w w' ->
      substep_round (ExecuteStepRecursive fuel) step ext w = (Returns true, w'))
  /\ (forall test J pre sk post wJ w1 wk wk',
         substep step = pre ++ sk :: post ->
         getContinuationTest ws step = Returns test ->
         completes (combined ext test)
                   (fun _ => substep_round (ExecuteStepRecursive fuel) step ext)
                   J 0 (record (StepEntered (name step)) ws) wJ ->
         combined ext test (Z.of_nat J) wJ = (Returns true, w1) ->
         all_return_true (ExecuteStepRecursive fuel) ext pre w1 wk ->
         ExecuteStepRecursive fuel sk ext wk = (Returns false, wk') ->
         (J < fuel)%nat ->
         ExecuteStepRecursive (S fuel) step ext ws = (Returns false, wk')).
Proof.
  intros Hsub Hnet Hseq Hrep. split.
  - intros w w' Hall. rewrite (sequential_round _ _ _ Hseq).
    unfold bind.
    rewrite <- (app_nil_r (substep step)).
    rewrite (worker_all_true _ _ _ [] _ _ Hall). reflexivity.
  - intros test J pre sk post wJ w1 wk wk' Hsplit Htest Hc Hgo Hpre Hsk Hfuel.
    assert (Hshape : shape_ok step = true).
    { unfold shape_ok. rewrite Hnet. cbn. apply orb_true_r. }
    rewrite exec_no_report by assumption.
    rewrite step_body_rounds.
    rewrite (getContinuationTest_net_map
               ws (record (StepEntered (name step)) ws) step eq_refl), Htest.
    unfold rounds.
    assert (negb (length (substep step) =? 0)%nat = true) as ->.
    { destruct (substep step); [congruence|reflexivity]. }
    eapply for_loop_fails_after; eauto.
    rewrite (sequential_round _ _ _ Hseq). unfold bind.
    rewrite Hsplit.
    rewrite (worker_all_true _ _ _ (sk :: post) _ _ Hpre).
    rewrite (worker_first_failure _ _ _ _ _ _ Hsk). reflexivity.
Qed.

Lemma C4_witness :
  exists ws',
    ExecuteStepRecursive 4 Sample.seq3 Sample.always Sample.ws_ab
    = (Returns false, ws')
    /\ history ws'
       = [StepEntered "seq"; StepEntered "s1"; NetRun "a";
          StepEntered "s2"; NetRun "b"]%string.
Proof.
  destruct (C4_sequential_substeps 3 Sample.seq3 Sample.always Sample.ws_ab)
    as [_ H].
  - discriminate.
  - reflexivity.
  - left. reflexivity.
  - reflexivity.
  - eexists. split.
    + eapply (H _ 0%nat [Sample.leaf "s1" ["a"%string]]
                (Sample.leaf "s2" ["b"%string])
                [Sample.leaf "s3" ["a"%string]]).
      * reflexivity.
      * reflexivity.
      * apply completes_0.
      * vm_compute. reflexivity.
      * eapply art_cons; [vm_compute; reflexivity | apply art_nil].
      * vm_compute. reflexivity.
      * lia.
    + vm_compute. reflexivity.
Defined.

(** ** Leaf steps with a network that is not registered *)

Lemma collect_networks_missing m names n :
  In n names -> m !! n = None -> collect_networks m names = None.
Proof.
  intros Hin Hn. induction names as [|n0 names IH]; [destruct Hin|].
  cbn. destruct Hin as [-> | Hin].
  - rewrite Hn. reflexivity.
  - rewrite (IH Hin). destruct (m !! n0); reflexivity.
Qed.

(** C5 (as amended): a leaf step that names a network absent from the
    registry, when its reporter set-up is in order (no report net, or an
    interval and a report net that is registered) and its continuation
    test can be built.  The names are looked up before the loop is
    entered, so the step returns [false] and the executing thread has
    run no net at all: neither a network of the step that is registered,
    nor the criteria network. *)
Theorem C5_unresolved_network fuel step ext ws n :
  substep step = [] ->
  In n (network step) ->
  net_map_ ws !! n = None ->
  reporter_ready ws step = true ->
  test_ready ws step = true ->
  exists ws',
    ExecuteStepRecursive (S fuel) step ext ws = (Returns false, ws')
    /\ net_runs (history ws') = net_runs (history ws).
Proof.
  intros Hsub Hin Hn Hrep Htest.
  assert (Hshape : shape_ok step = true).
  { unfold shape_ok. rewrite Hsub. reflexivity. }
  rewrite exec_ready by assumption.
  destruct (entry_ready step ws Hrep) as (_ & Hj & _ & Hm & Hh).
  exists (joined (reporter_of step ws) (entry step ws)). split.
  - apply scoped_returns; [exact Hj|].
    rewrite step_body_rounds.
    rewrite (getContinuationTest_net_map _ _ _ Hm).
    unfold test_ready in Htest.
    destruct (getContinuationTest ws step); try discriminate.
    unfold rounds. rewrite Hsub. cbn [length Nat.eqb negb].
    rewrite Hm, (collect_networks_missing _ _ _ Hin Hn). reflexivity.
  - rewrite joined_net_runs. exact Hh.
Qed.

Lemma C5_witness :
  exists ws',
    ExecuteStepRecursive 1 (Sample.leaf "s" ["a"; "zz"; "b"])%string
                         Sample.always Sample.ws_ab
    = (Returns false, ws')
    /\ net_runs (history ws') = [].
Proof.
  apply (C5_unresolved_network 0 (Sample.leaf "s" ["a"; "zz"; "b"])%string
           Sample.always Sample.ws_ab "zz"%string).
  - reflexivity.
  - cbn. auto.
  - vm_compute. reflexivity.
  - reflexivity.
  - reflexivity.
Defined.

(** The reporter and the continuation test are set up before the names
    are looked up.  A step whose only unregistered name is in its list
    of networks, and which gives both a count and a criteria network,
    does not return [false]: the CHECK at the head of
    [getContinuationTest] aborts the process. *)
Lemma C5_counterexample :
  let step := MkExecutionStep "s" [] ["a"; "zz"] (Some 3) (Some "crit")
                              None None false in
  let r := ExecuteStepRecursive 3 step Sample.always Sample.ws_crit in
  substep step = []
  /\ net_map_ Sample.ws_crit !! "zz" = None
  /\ fst r = Dies CheckFailed
  /\ fst r <> Returns false.
Proof.
  vm_compute. repeat split; try reflexivity. discriminate.
Qed.

(** ** Steps driven by a criteria network *)

Lemma criteria_test_state cn cnet out i w :
  snd (criteria_test cn cnet out i w)
  = after_runs w (snd (Run cnet (blobs w))) [cn].
Proof.
  unfold criteria_test, bind, run_ptr.
  destruct (Run cnet (blobs w)) as [ok b]. cbn [snd].
  cbn [blobs record set_blobs].
  destruct (GetBlob b out) as [[t|]|]; try reflexivity.
  destruct (negb (size t =? 1)); [reflexivity|].
  destruct (negb (IsType_bool t)); [reflexivity|].
  destruct t as [[|v data]|]; reflexivity.
Qed.

Lemma criteria_test_value cn cnet out i w v :
  fst (criteria_test cn cnet out i w) = Returns v
  <-> criteria_says cnet out (blobs w) = Some v.
Proof.
  unfold criteria_test, criteria_says, bind, run_ptr.
  destruct (Run cnet (blobs w)) as [ok b]. cbn [snd fst].
  cbn [blobs record set_blobs].
  destruct (GetBlob b out) as [[t|]|]; cbn [fst]; try (split; discriminate).
  destruct (Z.eqb_spec (size t) 1) as [Hsz|Hsz]; cbn [negb fst].
  - destruct t as [[|v0 [|v1 data]]|n]; cbn [IsType_bool negb fst];
      try (split; discriminate); try (cbn in Hsz; lia).
    split; intros [= ->]; reflexivity.
  - split; [discriminate|].
    destruct t as [[|v0 [|v1 data]]|n]; try discriminate.
    exfalso. apply Hsz. reflexivity.
Qed.

Lemma criteria_test_returns cn cnet out i w v :
  criteria_says cnet out (blobs w) = Some v ->
  criteria_test cn cnet out i w
  = (Returns v, after_runs w (snd (Run cnet (blobs w))) [cn]).
Proof.
  intros H. apply (criteria_test_value cn cnet out i w v) in H.
  rewrite <- H, <- (criteria_test_state cn cnet out i w).
  destruct (criteria_test cn cnet out i w); reflexivity.
Qed.


Lemma getContinuationTest_criteria ws step cn cnet out :
  criteria_network step = Some cn ->
  num_iter step = None ->
  GetNet ws cn = Some cnet ->
  external_output cnet = [out] ->
  getContinuationTest ws step = Returns (criteria_test cn cnet out).
Proof.
  intros Hc Hn Hg Ho. unfold getContinuationTest.
  rewrite Hc, Hn, Hg, Ho. reflexivity.
Qed.



(** ** The combined continuation test *)

(** C10: in a step driven by a criteria network, a check of the combined
    test at an index where the caller's predicate says [false] answers
    [false] and leaves the workspace as it is: the criteria net is not
    run, so neither the blobs nor the history change (where the caller's
    predicate says [true], the check does run the criteria net).  In the
    executor, for a step without a report net: when the caller's
    predicate says [false] after [J] completed iterations, the step
    returns [true] in the workspace those iterations left. *)
Theorem C10_external_denial_skips_criteria
    fuel step ext ws cn test body J wJ :
  criteria_network step = Some cn ->
  shape_ok step = true ->
  report_net step = None ->
  getContinuationTest ws step = Returns test ->
  rounds (ExecuteStepRecursive fuel) step ext ws = Some body ->
  completes (combined ext test) body J 0
            (record (StepEntered (name step)) ws) wJ ->
  ext (Z.of_nat J) = false ->
  (J < fuel)%nat ->
  (forall i w, ext i = false -> combined ext test i w = (Returns false, w))
  /\ (forall i w, ext i = true ->
        history (snd (combined ext test i w)) = history w ++ [NetRun cn])
  /\ ExecuteStepRecursive (S fuel) step ext ws = (Returns true, wJ).
Proof.
  intros Hcrit Hshape Hrep Htest Hbody Hc Hext Hfuel.
  assert (Hdeny : forall i w, ext i = false ->
                          combined ext test i w = (Returns false, w)).
  { intros i w Hi. unfold combined. rewrite Hi. reflexivity. }
  split; [exact Hdeny|]. split.
  { intros i w Hi. unfold combined. rewrite Hi.
    unfold getContinuationTest in Htest. rewrite Hcrit in Htest.
    destruct (num_iter step); [discriminate|].
    destruct (GetNet ws cn) as [cnet|]; [|discriminate].
    destruct (external_output cnet) as [|out [|]]; try discriminate.
    injection Htest as <-. rewrite criteria_test_state. reflexivity. }
  rewrite exec_no_report by assumption.
  rewrite step_body_rounds.
  rewrite (getContinuationTest_net_map
               ws (record (StepEntered (name step)) ws) step eq_refl), Htest.
  rewrite (rounds_net_map _ step ext
               ws (record (StepEntered (name step)) ws) eq_refl), Hbody.
  eapply for_loop_stops_after; eauto.
Qed.

Lemma C10_witness :
  let ext : ShouldContinue := fun i => i <? 1 in
  exists ws',
    ExecuteStepRecursive 3 (Sample.while_crit ["a"%string]) ext Sample.ws_crit
    = (Returns true, ws')
    /\ net_runs (history ws') = ["crit"; "a"]%string.
Proof.
  intros ext.
  destruct (C10_external_denial_skips_criteria 2
              (Sample.while_crit ["a"%string]) ext Sample.ws_crit "crit"%string
              (criteria_test "crit" Sample.countdown "go")
              (fun _ => run_networks [("a"%string, Some Sample.good)])
              1%nat
              (snd (run_networks [("a"%string, Some Sample.good)]
                      (snd (criteria_test "crit" Sample.countdown "go" 0
                              (record (StepEntered "loop") Sample.ws_crit))))))
    as (_ & _ & H).
  - reflexivity.
  - reflexivity.
  - reflexivity.
  - vm_compute. reflexivity.
  - vm_compute. reflexivity.
  - eapply completes_S; [ | | | apply completes_0 ].
    + vm_compute. reflexivity.
    + vm_compute. reflexivity.
    + reflexivity.
  - reflexivity.
  - lia.
  - eexists. split; [exact H|]. vm_compute. reflexivity.
Defined.

(** ** A step with both a fixed count and a criteria network *)




(** ** One-shot runs *)

Lemma RunNetOnce_net_map construct net_def ws :
  net_map_ (snd (RunNetOnce construct net_def ws)) = net_map_ ws.
Proof.
  unfold RunNetOnce. destruct (construct net_def (blobs ws)) as [[net|] b];
    [|reflexivity].
  destruct (Verify net); [|reflexivity]. cbn [blobs set_blobs].
  destruct (Run net b) as [ok b']. reflexivity.
Qed.

(** C7, on the code: when the net constructor yields null, [RunNetOnce]
    does not return [false]: it calls [Verify] through the null pointer.
    (The registry is indeed left as it was.) *)
Theorem C7_RunNetOnce_null_construction construct net_def ws :
  fst (construct net_def (blobs ws)) = None ->
  fst (RunNetOnce construct net_def ws) = Dies NullDereference
  /\ net_map_ (snd (RunNetOnce construct net_def ws)) = net_map_ ws.
Proof.
  intros H. split; [|apply RunNetOnce_net_map].
  unfold RunNetOnce. destruct (construct net_def (blobs ws)) as [p b].
  cbn in H. subst p. reflexivity.
Qed.

Lemma C7_witness :
  fst (RunNetOnce Sample.build {| net_name := Some "x"%string; body := [] |}
                  Sample.ws_ab) = Dies NullDereference
  /\ net_map_ (snd (RunNetOnce Sample.build
                               {| net_name := Some "x"%string; body := [] |}
                               Sample.ws_ab))
     = net_map_ Sample.ws_ab.
Proof.
  apply C7_RunNetOnce_null_construction. reflexivity.
Defined.

(** ** The registry invariant *)

Lemma registry_sound_delete m n :
  registry_sound m -> registry_sound (delete n m).
Proof.
  intros H k p Hk. apply lookup_delete_Some in Hk as [_ Hk]. eauto.
Qed.

Lemma registry_sound_insert m n net :
  registry_sound m -> Verify net = true ->
  registry_sound (<[n := Some net]> m).
Proof.
  intros H Hv k p Hk. apply lookup_insert_Some in Hk as [[_ <-]|[_ Hk]]; eauto.
Qed.

Lemma registry_sound_delete_insert m n p :
  registry_sound m -> registry_sound (delete n (<[n := p]> m)).
Proof.
  intros H k q Hk. apply lookup_delete_Some in Hk as [Hne Hk].
  rewrite lookup_insert_ne in Hk by exact Hne. eauto.
Qed.

(** [CreateNet] keeps the registry sound, whether it succeeds or not. *)
Lemma CreateNet_registry_sound construct net_def ws :
  registry_sound (net_map_ ws) ->
  registry_sound (net_map_ (snd (CreateNet construct net_def ws))).
Proof.
  intros H. unfold CreateNet.
  destruct (net_name net_def) as [n|]; [|exact H].
  set (ws1 := match net_map_ ws !! n with
              | Some _ => set_net_map (delete n (net_map_ ws)) ws
              | None => ws
              end).
  assert (H1 : registry_sound (net_map_ ws1)).
  { unfold ws1. destruct (net_map_ ws !! n); [|exact H].
    cbn. apply registry_sound_delete, H. }
  destruct (construct net_def (blobs ws1)) as [[net|] b]; cbn.
  - destruct (Verify net) eqn:Hv; cbn.
    + apply registry_sound_insert; assumption.
    + apply registry_sound_delete_insert, H1.
  - apply registry_sound_delete_insert, H1.
Qed.

(** A pointer returned by [CreateNet] is the registered instance. *)
Lemma CreateNet_registers construct net_def ws net :
  fst (CreateNet construct net_def ws) = Returns (Some net) ->
  exists n, net_name net_def = Some n
            /\ net_map_ (snd (CreateNet construct net_def ws)) !! n
               = Some (Some net)
            /\ Verify net = true.
Proof.
  unfold CreateNet. destruct (net_name net_def) as [n|]; [|discriminate].
  destruct (construct net_def _) as [[net'|] b]; cbn; [|discriminate].
  destruct (Verify net') eqn:Hv; cbn; [|discriminate].
  intros [= ->]. exists n. rewrite lookup_insert_eq. auto.
Qed.

Lemma DeleteNet_registry_sound n ws :
  registry_sound (net_map_ ws) ->
  registry_sound (net_map_ (snd (DeleteNet n ws))).
Proof.
  intros H. unfold DeleteNet. destruct (net_map_ ws !! n); [|exact H].
  cbn. apply registry_sound_delete, H.
Qed.

Lemma RunNet_net_map n ws : net_map_ (snd (RunNet n ws)) = net_map_ ws.
Proof.
  unfold RunNet, run_ptr. destruct (net_map_ ws !! n) as [[net|]|]; try reflexivity.
  destruct (Run net (blobs ws)) as [ok b]. reflexivity.
Qed.

(** C8, on the code: the invariant is not kept by [RunPlan].  From the
    empty workspace, which is sound, the plan [Sample.plan_r] (one net, one
    step whose report net "r" is not defined) leaves the name "r" in the
    registry with a null instance. *)
Theorem C8_RunPlan_registers_null :
  let r := RunPlan Sample.build 4 Sample.plan_r Sample.always Sample.ws_empty in
  registry_sound (net_map_ Sample.ws_empty)
  /\ net_map_ (snd r) !! "r"%string = Some None
  /\ ~ registry_sound (net_map_ (snd r)).
Proof.
  intros r.
  assert (Hr : net_map_ (snd r) !! "r"%string = Some None)
    by (vm_compute; reflexivity).
  split; [|split].
  - intros n p Hn. cbn in Hn. rewrite lookup_empty in Hn. discriminate.
  - exact Hr.
  - intros Hsound. destruct (Hsound _ _ Hr) as (net & Hnet & _). discriminate.
Qed.

(** ** A report net that is not registered *)

(** C9, on the code: when the report net of a step is not in the
    registry, the reporter is started all the same, on the null pointer
    that the lookup [net_map_[report_net]] has just inserted.  The
    reporter thread calls [Run] through that pointer before it can be
    joined, so the step never returns a value to its caller, whatever
    its body does. *)
Theorem C9_missing_report_net fuel step ext ws rn itv :
  report_net step = Some rn ->
  report_interval step = Some itv ->
  net_map_ ws !! rn = None ->
  shape_ok step = true ->
  (exists ws1,
      Reporter_start step ws = (Returns (Some (rn, None)), ws1)
      /\ history ws1 = history ws ++ [ReporterStarted rn]
      /\ net_map_ ws1 !! rn = Some None)
  /\ (forall b, fst (ExecuteStepRecursive (S fuel) step ext ws) <> Returns b).
Proof.
  intros Hrn Hitv Hmiss Hshape. split.
  - unfold Reporter_start. rewrite Hrn, Hitv, Hmiss.
    eexists. split; [reflexivity|]. cbn. split; [reflexivity|].
    apply lookup_insert_eq.
  - intros b. rewrite ExecuteStepRecursive_unfold. cbn zeta.
    unfold shape_ok in Hshape. rewrite Hshape. cbn [negb].
    unfold bind, Reporter_start. rewrite Hrn, Hitv. cbn [net_map_ record].
    rewrite Hmiss. unfold scoped.
    destruct (step_body _ _ _ _ _) as [[v|[]| |] w]; cbn; discriminate.
Qed.

Lemma C9_witness :
  let step :=
    MkExecutionStep "s" [] ["a"%string] None None (Some "r"%string) (Some 1) false in
  (exists ws1,
      Reporter_start step Sample.ws_ab = (Returns (Some ("r"%string, None)), ws1)
      /\ history ws1 = history Sample.ws_ab ++ [ReporterStarted "r"%string]
      /\ net_map_ ws1 !! "r"%string = Some None)
  /\ (forall b,
         fst (ExecuteStepRecursive 3 step Sample.always Sample.ws_ab) <> Returns b).
Proof.
  intros step.
  apply (C9_missing_report_net 2 step Sample.always Sample.ws_ab "r"%string 1).
  - reflexivity.
  - reflexivity.
  - vm_compute. reflexivity.
  - reflexivity.
Defined.

(** The same step with and without its report net: without it the step
    returns [true]; with it the run ends in the null dereference. *)
Example missing_report_net_changes_outcome :
  fst (ExecuteStepRecursive 3
         (MkExecutionStep "s" [] ["a"%string] None None None None false)
         Sample.always Sample.ws_ab) = Returns true
  /\ fst (ExecuteStepRecursive 3
            (MkExecutionStep "s" [] ["a"%string] None None
                             (Some "r"%string) (Some 1) false)
            Sample.always Sample.ws_ab) = Dies NullDereference.
Proof. vm_compute. split; reflexivity. Qed.

(** ** Fuel *)









(** The null entry is seen by a later lookup: a leaf step that lists the
    name of its missing report net after a registered net runs that net
    and then calls [Run] through the null entry. *)
Example null_entry_is_collected :
  let r := ExecuteStepRecursive 3
             (MkExecutionStep "s" [] ["a"; "r"]%string None None
                              (Some "r"%string) (Some 1) false)
             Sample.always Sample.ws_ab in
  fst r = Dies NullDereference
  /\ history (snd r)
     = [StepEntered "s"; ReporterStarted "r"; NetRun "a"]%string.
Proof. vm_compute. split; reflexivity. Qed.

(** ** Registry entries during step execution *)

Lemma keeps_ret {A} (a : A) : keeps_entries (ret a).
Proof. intros ws k p H. exact H. Qed.

Lemma keeps_bind {A B} (m : M A) (f : A -> M B) :
  keeps_entries m -> (forall a, keeps_entries (f a)) ->
  keeps_entries (bind m f).
Proof.
  intros Hm Hf ws k p H. unfold bind.
  specialize (Hm ws k p H). destruct (m ws) as [[a|e| |] w]; cbn in *; auto.
  apply Hf, Hm.
Qed.

Lemma keeps_run_ptr key ptr : keeps_entries (run_ptr key ptr).
Proof.
  intros ws k p H. unfold run_ptr. destruct ptr as [net|]; [|exact H].
  destruct (Run net (blobs ws)). exact H.
Qed.

Lemma keeps_run_networks networks : keeps_entries (run_networks networks).
Proof.
  induction networks as [|[key ptr] rest IH]; [apply keeps_ret|].
  cbn [run_networks]. apply keeps_bind; [apply keeps_run_ptr|].
  intros [|]; [exact IH|apply keeps_ret].
Qed.

Lemma keeps_criteria_test cn cnet out i :
  keeps_entries (criteria_test cn cnet out i).
Proof.
  intros ws k p H. rewrite criteria_test_state. exact H.
Qed.

Lemma keeps_test ws0 step test :
  getContinuationTest ws0 step = Returns test ->
  forall i, keeps_entries (test i).
Proof.
  unfold getContinuationTest.
  destruct (criteria_network step) as [cn|], (num_iter step) as [n|];
    try discriminate.
  - destruct (GetNet ws0 cn) as [cnet|]; [|discriminate].
    destruct (external_output cnet) as [|out [|]]; try discriminate.
    intros [= <-] i. apply keeps_criteria_test.
  - intros [= <-] i. apply keeps_ret.
  - intros [= <-] i. apply keeps_ret.
Qed.

Lemma keeps_Reporter_start step : keeps_entries (Reporter_start step).
Proof.
  intros ws k p H. unfold Reporter_start.
  destruct (report_net step) as [rn|]; [|exact H].
  destruct (report_interval step); [|exact H].
  destruct (net_map_ ws !! rn) as [q|] eqn:E; cbn; [exact H|].
  rewrite lookup_insert_ne; [exact H|]. intros ->. congruence.
Qed.

Lemma keeps_Reporter_join r : keeps_entries (Reporter_join r).
Proof.
  intros ws k p H. unfold Reporter_join.
  destruct r as [[rn [net|]]|]; try exact H.
  destruct (Run net (blobs ws)). exact H.
Qed.

Lemma keeps_scoped r body : keeps_entries body -> keeps_entries (scoped r body).
Proof.
  intros Hb ws k p H. unfold scoped. specialize (Hb ws k p H).
  destruct (body ws) as [[b|[]| |] w]; cbn in *; auto;
    pose proof (keeps_Reporter_join r w k p Hb) as Hj;
    destruct (Reporter_join r w) as [[u|e| |] w']; exact Hj.
Qed.

Lemma keeps_for_loop sc body :
  (forall i, keeps_entries (sc i)) ->
  (forall i, keeps_entries (body i)) ->
  forall fuel iter, keeps_entries (for_loop fuel sc body iter).
Proof.
  intros Hsc Hbody. induction fuel as [|fuel IH]; intros iter.
  - intros ws k p H. exact H.
  - cbn [for_loop]. apply keeps_bind; [apply Hsc|].
    intros [|]; [|apply keeps_ret].
    apply keeps_bind; [apply Hbody|]. intros [|]; [|apply keeps_ret].
    destruct (iter <? INT_MAX); [apply IH|]. intros ws k p H. exact H.
Qed.

Lemma keeps_worker rec ext :
  (forall s e, keeps_entries (rec s e)) ->
  forall substeps got_failure,
    keeps_entries (worker rec substeps ext got_failure).
Proof.
  intros Hrec. induction substeps as [|s rest IH]; intros got_failure.
  - apply keeps_ret.
  - cbn [worker]. destruct got_failure; [apply keeps_ret|].
    apply keeps_bind; [apply Hrec|]. intros ok. apply IH.
Qed.

Lemma keeps_step_body rec fuel step ext :
  (forall s e, keeps_entries (rec s e)) ->
  keeps_entries (step_body rec fuel step ext).
Proof.
  intros Hrec ws k p H. unfold step_body.
  destruct (getContinuationTest ws step) as [test|e| |] eqn:Et; try exact H.
  assert (Hsc : forall i, keeps_entries (combined ext test i)).
  { intros i. unfold combined. destruct (ext i); [|apply keeps_ret].
    eapply keeps_test; eauto. }
  destruct (negb _).
  - apply keeps_for_loop; [exact Hsc| |exact H]. intros _.
    unfold substep_round. destruct (_ || _).
    + apply keeps_bind; [apply keeps_worker, Hrec|]. intros; apply keeps_ret.
    + intros w k' p' H'. exact H'.
  - destruct (collect_networks _ _) as [networks|]; [|exact H].
    apply keeps_for_loop; [exact Hsc| |exact H].
    intros _. apply keeps_run_networks.
Qed.

(** Step execution never removes or replaces an entry of the registry:
    the pointers a step has collected stay the registered ones. *)
Lemma ExecuteStepRecursive_keeps_entries fuel :
  forall step ext, keeps_entries (ExecuteStepRecursive fuel step ext).
Proof.
  induction fuel as [|fuel IH]; intros step ext.
  - intros ws k p H. exact H.
  - cbn [ExecuteStepRecursive]. apply keeps_bind.
    + intros ws k p H. exact H.
    + intros _. destruct (negb _); [apply keeps_ret|].
      apply keeps_bind; [apply keeps_Reporter_start|]. intros r.
      apply keeps_scoped, keeps_step_body, IH.
Qed.

(** Whatever the body of the step does, the null entry that the reporter
    set-up makes for a missing report net is still in the registry when
    the execution of the step has ended. *)
Lemma missing_report_net_leaves_null_entry fuel step ext ws rn itv :
  report_net step = Some rn ->
  report_interval step = Some itv ->
  net_map_ ws !! rn = None ->
  shape_ok step = true ->
  net_map_ (snd (ExecuteStepRecursive (S fuel) step ext ws)) !! rn = Some None.
Proof.
  intros Hrn Hitv Hmiss Hshape.
  rewrite ExecuteStepRecursive_unfold. cbn zeta.
  unfold shape_ok in Hshape. rewrite Hshape. cbn [negb].
  unfold bind, Reporter_start. rewrite Hrn, Hitv. cbn [net_map_ record].
  rewrite Hmiss.
  apply keeps_scoped.
  - apply keeps_step_body. intros s e. apply ExecuteStepRecursive_keeps_entries.
  - cbn. apply lookup_insert_eq.
Qed.

(** * Further properties of the workspace *)

(** ** Blobs *)

Lemma GetBlob_None_HasBlob :
  forall (s : BlobStore) (n : string),
    GetBlob s n = None <-> HasBlob s n = false.
Proof.
  fix IH 1. intros [m sh] n. cbn.
  destruct (m !! n) as [b|]; [split; discriminate|].
  destruct sh as [p|]; [|split; reflexivity].
  destruct (HasBlob p n) eqn:E; [|split; reflexivity].
  split; [|discriminate]. intros H. apply IH in H. congruence.
Qed.

Lemma GetBlob_Some_HasBlob (s : BlobStore) (n : string) (b : Blob) :
  GetBlob s n = Some b -> HasBlob s n = true.
Proof.
  intros H. destruct (HasBlob s n) eqn:E; [reflexivity|].
  apply GetBlob_None_HasBlob in E. congruence.
Qed.

Lemma GetBlob_chain (m : gmap string Blob) (p : BlobStore) (n : string) :
  GetBlob (MkBlobStore m (Some p)) n
  = match m !! n with
    | Some b => Some b
    | None => GetBlob p n
    end.
Proof.
  cbn. destruct (m !! n); [reflexivity|].
  destruct (HasBlob p n) eqn:E; [reflexivity|].
  symmetry. apply GetBlob_None_HasBlob. exact E.
Qed.

Lemma CreateBlob_HasBlob (n : string) (s : BlobStore) :
  HasBlob (snd (CreateBlob n s)) n = true.
Proof.
  unfold CreateBlob. cbn [snd]. destruct (HasBlob s n) eqn:E; [exact E|].
  destruct s as [m sh]. cbn. rewrite lookup_insert_eq. reflexivity.
Qed.

Lemma Blobs_elem :
  forall (s : BlobStore) (n : string),
    n ∈ Blobs s <-> HasBlob s n = true.
Proof.
  fix IH 1. intros [m sh] n. cbn [Blobs HasBlob].
  rewrite elem_of_app, list_elem_of_fmap.
  split.
  - intros [([k b] & -> & Hin)|Hin].
    + apply elem_of_map_to_list in Hin. cbn. rewrite Hin. reflexivity.
    + destruct (m !! n); [reflexivity|].
      destruct sh as [p|]; [apply IH, Hin|]. inversion Hin.
  - destruct (m !! n) as [b|] eqn:E.
    + intros _. left. exists (n, b). split; [reflexivity|].
      apply elem_of_map_to_list. exact E.
    + destruct sh as [p|]; [|discriminate].
      intros H. right. apply IH, H.
Qed.

(** X1: [GetBlob] returns null exactly for the names [HasBlob] denies,
    at every depth of the parent chain. *)
Theorem X1_GetBlob_null_iff_not_HasBlob (s : BlobStore) (n : string) :
  GetBlob s n = None <-> HasBlob s n = false.
Proof. apply GetBlob_None_HasBlob. Qed.

(** X2: [GetBlob] reads through: the local entry when there is one,
    else whatever the parent's [GetBlob] gives (the [HasBlob] test on the
    parent changes nothing). *)
Theorem X2_GetBlob_reads_through (m : gmap string Blob) (p : BlobStore)
    (n : string) :
  GetBlob (MkBlobStore m (Some p)) n
  = match m !! n with
    | Some b => Some b
    | None => GetBlob p n
    end.
Proof. apply GetBlob_chain. Qed.

(** X3: [CreateBlob] never returns null, and the name exists afterwards;
    for a name that did not exist the blob returned is the fresh one,
    which holds no tensor. *)
Theorem X3_CreateBlob_returns_a_blob (n : string) (s : BlobStore) :
  (exists b, fst (CreateBlob n s) = Some b)
  /\ HasBlob (snd (CreateBlob n s)) n = true
  /\ (HasBlob s n = false -> fst (CreateBlob n s) = Some OtherBlob).
Proof.
  split; [|split; [apply CreateBlob_HasBlob|]].
  - pose proof (CreateBlob_HasBlob n s) as H. unfold CreateBlob in *.
    cbn [fst snd] in *.
    destruct (GetBlob _ n) as [b|] eqn:G; [eauto|].
    apply GetBlob_None_HasBlob in G. congruence.
  - intros E. unfold CreateBlob. rewrite E. cbn [fst].
    destruct s as [m sh]. cbn. rewrite lookup_insert_eq. reflexivity.
Qed.

(** X4: [CreateBlob] is idempotent: a second call with the same name
    returns the same blob and leaves the store as the first call left
    it. *)
Theorem X4_CreateBlob_idempotent (n : string) (s : BlobStore) :
  CreateBlob n (snd (CreateBlob n s)) = CreateBlob n s.
Proof.
  pose proof (CreateBlob_HasBlob n s) as H.
  unfold CreateBlob at 1. rewrite H. reflexivity.
Qed.

(** X5: a name that only a parent holds is not shadowed: [CreateBlob]
    leaves the store as it is and returns the parent's blob. *)
Theorem X5_CreateBlob_does_not_shadow (n : string) (m : gmap string Blob)
    (p : BlobStore) (b : Blob) :
  m !! n = None ->
  GetBlob p n = Some b ->
  CreateBlob n (MkBlobStore m (Some p)) = (Some b, MkBlobStore m (Some p)).
Proof.
  intros Hm Hp. unfold CreateBlob.
  assert (HasBlob (MkBlobStore m (Some p)) n = true) as ->.
  { cbn. rewrite Hm. eapply GetBlob_Some_HasBlob, Hp. }
  rewrite GetBlob_chain, Hm, Hp. reflexivity.
Qed.

Lemma X5_witness :
  CreateBlob "y" Fixture.child = (Some OtherBlob, Fixture.child).
Proof.
  apply (X5_CreateBlob_does_not_shadow "y" _ Fixture.parent OtherBlob).
  - vm_compute. reflexivity.
  - vm_compute. reflexivity.
Defined.

(** X6: [CreateBlob] does not disturb other names: what [GetBlob] gives
    for a different name is what it gave before. *)
Theorem X6_CreateBlob_other_names (n n' : string) (s : BlobStore) :
  n' <> n ->
  GetBlob (snd (CreateBlob n s)) n' = GetBlob s n'.
Proof.
  intros Hne. unfold CreateBlob. cbn [snd].
  destruct (HasBlob s n); [reflexivity|].
  destruct s as [m sh]. cbn. rewrite lookup_insert_ne by congruence.
  reflexivity.
Qed.

Lemma X6_witness :
  GetBlob (snd (CreateBlob "z" Fixture.child)) "x" = GetBlob Fixture.child "x".
Proof. apply X6_CreateBlob_other_names. discriminate. Defined.

(** X7: [Blobs] lists exactly the names for which [HasBlob] holds, those
    of the parents included. *)
Theorem X7_Blobs_lists_what_HasBlob_finds (s : BlobStore) (n : string) :
  n ∈ Blobs s <-> HasBlob s n = true.
Proof. apply Blobs_elem. Qed.

(** X8: [Blobs] does not remove repetitions: a name held locally and by
    a parent is listed twice. *)
Theorem X8_Blobs_repeats_shadowed_names (m : gmap string Blob)
    (p : BlobStore) (n : string) (b : Blob) :
  m !! n = Some b ->
  HasBlob p n = true ->
  ~ NoDup (Blobs (MkBlobStore m (Some p))).
Proof.
  intros Hm Hp Hnd. cbn [Blobs] in Hnd.
  apply NoDup_app in Hnd as (_ & Hdisj & _).
  apply (Hdisj n).
  - apply list_elem_of_fmap. exists (n, b). split; [reflexivity|].
    apply elem_of_map_to_list. exact Hm.
  - apply Blobs_elem. exact Hp.
Qed.

Lemma X8_witness : ~ NoDup (Blobs Fixture.child).
Proof.
  apply (X8_Blobs_repeats_shadowed_names _ Fixture.parent "x" OtherBlob).
  - vm_compute. reflexivity.
  - vm_compute. reflexivity.
Defined.

(** ** The net registry *)

Lemma CreateNet_named construct net_def n ws :
  net_name net_def = Some n ->
  CreateNet construct net_def ws =
  let '(p, b) := construct net_def (blobs ws) in
  match p with
  | Some net =>
      if Verify net then
        (Returns (Some net),
         set_net_map (<[n := Some net]> (net_map_ ws)) (set_blobs b ws))
      else
        (Returns None, set_net_map (delete n (net_map_ ws)) (set_blobs b ws))
  | None =>
      (Returns None, set_net_map (delete n (net_map_ ws)) (set_blobs b ws))
  end.
Proof.
  intros Hn. unfold CreateNet. rewrite Hn.
  assert (Hdel : forall (m : gmap string (option NetBase)),
             match m !! n with Some _ => delete n m | None => m end
             = delete n m).
  { intros m. destruct (m !! n) eqn:E; [reflexivity|].
    symmetry. apply delete_id, E. }
  set (ws1 := match net_map_ ws !! n with
              | Some _ => set_net_map (delete n (net_map_ ws)) ws
              | None => ws
              end).
  assert (Hb : blobs ws1 = blobs ws)
    by (unfold ws1; destruct (net_map_ ws !! n); reflexivity).
  assert (Hh : history ws1 = history ws)
    by (unfold ws1; destruct (net_map_ ws !! n); reflexivity).
  assert (Hm : net_map_ ws1 = delete n (net_map_ ws)).
  { rewrite <- Hdel. unfold ws1. destruct (net_map_ ws !! n); reflexivity. }
  rewrite Hb. destruct (construct net_def (blobs ws)) as [[net|] b];
    unfold set_net_map, set_blobs; cbn; rewrite Hm, Hh.
  - destruct (Verify net).
    + rewrite insert_delete_eq. reflexivity.
    + rewrite delete_insert_eq, delete_delete_eq. reflexivity.
  - rewrite delete_insert_eq, delete_delete_eq. reflexivity.
Qed.

Lemma CreateNet_agrees construct net_def n ws :
  net_name net_def = Some n ->
  exists p,
    fst (CreateNet construct net_def ws) = Returns p
    /\ GetNet (snd (CreateNet construct net_def ws)) n = p
    /\ (forall net, p = Some net -> Verify net = true).
Proof.
  intros Hn. rewrite (CreateNet_named _ _ _ _ Hn). unfold GetNet.
  destruct (construct net_def (blobs ws)) as [[net|] b].
  - destruct (Verify net) eqn:Hv; cbn.
    + exists (Some net). rewrite lookup_insert_eq.
      repeat split. intros net' [= <-]. exact Hv.
    + exists None. rewrite lookup_delete_eq. repeat split. discriminate.
  - cbn. exists None. rewrite lookup_delete_eq. repeat split. discriminate.
Qed.

(** X9: after [CreateNet] on a named definition the registry agrees with
    the pointer returned: a returned net is the one [GetNet] finds under
    the name, and it has passed [Verify]; after a failed call (null
    returned) [GetNet] finds nothing under the name, even if a net of
    that name was registered before. *)
Theorem X9_CreateNet_GetNet construct net_def n ws :
  net_name net_def = Some n ->
  exists p,
    fst (CreateNet construct net_def ws) = Returns p
    /\ GetNet (snd (CreateNet construct net_def ws)) n = p
    /\ (forall net, p = Some net -> Verify net = true).
Proof. apply CreateNet_agrees; assumption. Qed.

Lemma X9_witness :
  exists p,
    fst (CreateNet Fixture.build (Fixture.def "a" "unverified") Sample.ws_ab)
    = Returns p
    /\ GetNet (snd (CreateNet Fixture.build (Fixture.def "a" "unverified")
                              Sample.ws_ab)) "a" = p
    /\ (forall net, p = Some net -> Verify net = true).
Proof. apply X9_CreateNet_GetNet. reflexivity. Defined.

Lemma CreateNet_frame construct net_def ws n' :
  net_name net_def <> Some n' ->
  net_map_ (snd (CreateNet construct net_def ws)) !! n' = net_map_ ws !! n'.
Proof.
  intros Hne. destruct (net_name net_def) as [n|] eqn:Hn.
  - rewrite (CreateNet_named _ _ _ _ Hn).
    assert (n <> n') by congruence.
    destruct (construct net_def (blobs ws)) as [[net|] b]; cbn;
      [destruct (Verify net); cbn|];
      rewrite ?lookup_insert_ne, ?lookup_delete_ne by assumption; reflexivity.
  - unfold CreateNet. rewrite Hn. reflexivity.
Qed.

(** X10: [CreateNet] touches one name only: every other name of the
    registry keeps its entry, whether the call succeeds, fails or ends in
    the CHECK on a missing name. *)
Theorem X10_CreateNet_other_names construct net_def ws n' :
  net_name net_def <> Some n' ->
  net_map_ (snd (CreateNet construct net_def ws)) !! n' = net_map_ ws !! n'.
Proof. apply CreateNet_frame; assumption. Qed.

Lemma X10_witness :
  net_map_ (snd (CreateNet Fixture.build (Fixture.def "a" "none") Sample.ws_ab))
    !! "b"%string
  = net_map_ Sample.ws_ab !! "b"%string.
Proof. apply X10_CreateNet_other_names. discriminate. Defined.

(** X11: [CreateNet] keeps the registry sound: if every entry holds a
    verified net before the call, so does every entry after it, whatever
    the constructor and [Verify] answer. *)
Theorem X11_CreateNet_keeps_registry_sound construct net_def ws :
  registry_sound (net_map_ ws) ->
  registry_sound (net_map_ (snd (CreateNet construct net_def ws))).
Proof.
  intros H. destruct (net_name net_def) as [n|] eqn:Hn.
  - rewrite (CreateNet_named _ _ _ _ Hn).
    destruct (construct net_def (blobs ws)) as [[net|] b]; cbn.
    + destruct (Verify net) eqn:Hv; cbn.
      * apply registry_sound_insert; assumption.
      * apply registry_sound_delete, H.
    + apply registry_sound_delete, H.
  - unfold CreateNet. rewrite Hn. exact H.
Qed.

Lemma X11_witness :
  registry_sound
    (net_map_ (snd (CreateNet Fixture.build (Fixture.def "a" "unverified")
                              Sample.ws_ab))).
Proof.
  apply X11_CreateNet_keeps_registry_sound.
  intros n p Hn. cbn in Hn.
  apply lookup_insert_Some in Hn as [[_ <-]|[_ Hn]]; [eauto|].
  apply lookup_insert_Some in Hn as [[_ <-]|[_ Hn]]; [eauto|].
  rewrite lookup_empty in Hn. discriminate.
Defined.

(** X12: [DeleteNet] removes the name and nothing else: afterwards
    [GetNet] finds nothing under it, every other name keeps its entry,
    and blobs and history are untouched; for a name that is not
    registered the workspace is left as it is. *)
Theorem X12_DeleteNet_removes_one_name (n : string) (ws : Workspace) :
  fst (DeleteNet n ws) = Returns tt
  /\ GetNet (snd (DeleteNet n ws)) n = None
  /\ (forall n', n' <> n ->
        net_map_ (snd (DeleteNet n ws)) !! n' = net_map_ ws !! n')
  /\ blobs (snd (DeleteNet n ws)) = blobs ws
  /\ history (snd (DeleteNet n ws)) = history ws
  /\ (net_map_ ws !! n = None -> snd (DeleteNet n ws) = ws).
Proof.
  unfold DeleteNet, GetNet. destruct (net_map_ ws !! n) as [p|] eqn:E; cbn.
  - rewrite lookup_delete_eq. repeat split; try discriminate.
    intros n' Hne. apply lookup_delete_ne. congruence.
  - rewrite E. repeat split.
Qed.

(** X13: creating a net under a name that is not registered and deleting
    it again gives back the registry as it was. *)
Theorem X13_CreateNet_DeleteNet_restores construct net_def n ws :
  net_name net_def = Some n ->
  net_map_ ws !! n = None ->
  net_map_ (snd (DeleteNet n (snd (CreateNet construct net_def ws))))
  = net_map_ ws.
Proof.
  intros Hn Hfresh. rewrite (CreateNet_named _ _ _ _ Hn).
  unfold DeleteNet.
  destruct (construct net_def (blobs ws)) as [[net|] b]; cbn;
    [destruct (Verify net); cbn|].
  - rewrite lookup_insert_eq. cbn. apply delete_insert_id, Hfresh.
  - rewrite lookup_delete_eq. cbn. apply delete_id, Hfresh.
  - rewrite lookup_delete_eq. cbn. apply delete_id, Hfresh.
Qed.

Lemma X13_witness :
  net_map_ (snd (DeleteNet "c"
                   (snd (CreateNet Fixture.build (Fixture.def "c" "good")
                                   Sample.ws_ab))))
  = net_map_ Sample.ws_ab.
Proof.
  apply X13_CreateNet_DeleteNet_restores.
  - reflexivity.
  - vm_compute. reflexivity.
Defined.

(** X14: [RunNet] on the name of a net that [CreateNet] has just returned
    runs that net once, returns what its [Run] returns and leaves the
    registry alone. *)
Theorem X14_CreateNet_RunNet construct net_def n ws net :
  net_name net_def = Some n ->
  fst (CreateNet construct net_def ws) = Returns (Some net) ->
  let ws1 := snd (CreateNet construct net_def ws) in
  RunNet n ws1
  = (Returns (fst (Run net (blobs ws1))),
     after_runs ws1 (snd (Run net (blobs ws1))) [n]).
Proof.
  intros Hn Hret ws1.
  assert (Hreg : net_map_ ws1 !! n = Some (Some net)).
  { unfold ws1. revert Hret. rewrite (CreateNet_named _ _ _ _ Hn).
    destruct (construct net_def (blobs ws)) as [[net'|] b]; cbn;
      [destruct (Verify net'); cbn|]; try discriminate.
    intros [= ->]. apply lookup_insert_eq. }
  unfold RunNet, run_ptr. rewrite Hreg.
  destruct (Run net (blobs ws1)) as [ok b']. reflexivity.
Qed.

Lemma X14_witness :
  let ws1 := snd (CreateNet Fixture.build (Fixture.def "c" "bad") Sample.ws_ab) in
  RunNet "c" ws1
  = (Returns (fst (Run Sample.bad (blobs ws1))),
     after_runs ws1 (snd (Run Sample.bad (blobs ws1))) ["c"%string]).
Proof.
  apply (X14_CreateNet_RunNet Fixture.build (Fixture.def "c" "bad")).
  - reflexivity.
  - reflexivity.
Defined.

(** X15: after [DeleteNet], [RunNet] on that name returns [false] and
    runs nothing. *)
Theorem X15_DeleteNet_RunNet (n : string) (ws : Workspace) :
  RunNet n (snd (DeleteNet n ws)) = (Returns false, snd (DeleteNet n ws)).
Proof.
  unfold RunNet.
  assert (net_map_ (snd (DeleteNet n ws)) !! n = None) as ->; [|reflexivity].
  unfold DeleteNet. destruct (net_map_ ws !! n) eqn:E; cbn; [|exact E].
  apply lookup_delete_eq.
Qed.

(** X16: for a definition whose name is not registered and for which the
    constructor yields a net, [RunNetOnce] does what [CreateNet], [RunNet]
    and [DeleteNet] do one after the other: the same outcome, blobs and
    history, and the registry as before. *)
Theorem X16_RunNetOnce_as_create_run_delete construct net_def n ws net b :
  net_name net_def = Some n ->
  net_map_ ws !! n = None ->
  construct net_def (blobs ws) = (Some net, b) ->
  RunNetOnce construct net_def ws
  = (p <- CreateNet construct net_def ;;
     match p with
     | None => ret false
     | Some _ => ok <- RunNet n ;; DeleteNet n ;;; ret ok
     end) ws.
Proof.
  intros Hn Hfresh Hc. unfold bind at 1.
  rewrite (CreateNet_named _ _ _ _ Hn). unfold RunNetOnce. rewrite Hc, Hn.
  destruct ws as [bl m h]. cbn in *.
  destruct (Verify net); cbn.
  - unfold bind, RunNet, run_ptr, set_net_map, set_blobs, record. cbn.
    rewrite lookup_insert_eq.
    destruct (Run net b) as [ok b']. cbn.
    unfold DeleteNet. cbn. rewrite lookup_insert_eq. cbn.
    unfold ret, set_net_map. cbn.
    rewrite (delete_insert_id _ _ _ Hfresh). reflexivity.
  - unfold ret, set_net_map, set_blobs. cbn.
    rewrite (delete_id _ _ Hfresh). reflexivity.
Qed.

Lemma X16_witness :
  RunNetOnce Fixture.build (Fixture.def "c" "bad") Sample.ws_ab
  = (p <- CreateNet Fixture.build (Fixture.def "c" "bad") ;;
     match p with
     | None => ret false
     | Some _ => ok <- RunNet "c" ;; DeleteNet "c" ;;; ret ok
     end) Sample.ws_ab.
Proof.
  apply (X16_RunNetOnce_as_create_run_delete _ _ "c"%string _
           Sample.bad Sample.no_blobs).
  - reflexivity.
  - vm_compute. reflexivity.
  - reflexivity.
Defined.

(** X17: [RunOperatorOnce] always returns a value: [false] when the
    constructor yields null, else what the operator's [Run] returns; it
    touches neither the registry nor the history. *)
Theorem X17_RunOperatorOnce_returns construct_op op_def ws :
  exists ok,
    fst (RunOperatorOnce construct_op op_def ws) = Returns ok
    /\ (ok = true <->
        exists op, fst (construct_op op_def (blobs ws)) = Some op
                   /\ fst (op_Run op (snd (construct_op op_def (blobs ws))))
                      = true)
    /\ net_map_ (snd (RunOperatorOnce construct_op op_def ws)) = net_map_ ws
    /\ history (snd (RunOperatorOnce construct_op op_def ws)) = history ws.
Proof.
  unfold RunOperatorOnce.
  destruct (construct_op op_def (blobs ws)) as [[op|] b]; cbn.
  - destruct (op_Run op b) as [ok b'] eqn:E. exists ok. cbn.
    repeat split.
    + intros ->. exists op. rewrite E. auto.
    + intros (op' & [= <-] & H). rewrite E in H. exact H.
  - exists false. repeat split; try discriminate.
    intros (op & H & _). discriminate.
Qed.

(** ** What step execution does to the registry *)

Section RegistryRelation.

Context (R : gmap string (option NetBase) -> gmap string (option NetBase) -> Prop).
Hypothesis R_refl : forall m, R m m.
Hypothesis R_trans : forall m1 m2 m3, R m1 m2 -> R m2 m3 -> R m1 m3.
Hypothesis R_null :
  forall (m : gmap string (option NetBase)) k,
    m !! k = None -> R m (<[k := None]> m).

Lemma respects_ret {A} (a : A) : respects R (ret a).
Proof. intros ws. apply R_refl. Qed.

Lemma respects_same {A} (m : M A) :
  (forall ws, net_map_ (snd (m ws)) = net_map_ ws) -> respects R m.
Proof. intros H ws. rewrite H. apply R_refl. Qed.

Lemma respects_bind {A B} (m : M A) (f : A -> M B) :
  respects R m -> (forall a, respects R (f a)) -> respects R (bind m f).
Proof.
  intros Hm Hf ws. unfold bind. specialize (Hm ws).
  destruct (m ws) as [[a|e| |] w]; cbn in *; auto.
  eapply R_trans; [exact Hm|apply Hf].
Qed.

Lemma respects_run_ptr key ptr : respects R (run_ptr key ptr).
Proof.
  apply respects_same. intros ws. unfold run_ptr.
  destruct ptr as [net|]; [|reflexivity].
  destruct (Run net (blobs ws)). reflexivity.
Qed.

Lemma respects_run_networks networks : respects R (run_networks networks).
Proof.
  induction networks as [|[key ptr] rest IH]; [apply respects_ret|].
  cbn [run_networks]. apply respects_bind; [apply respects_run_ptr|].
  intros [|]; [exact IH|apply respects_ret].
Qed.

Lemma respects_test ws0 step test :
  getContinuationTest ws0 step = Returns test ->
  forall i, respects R (test i).
Proof.
  unfold getContinuationTest.
  destruct (criteria_network step) as [cn|], (num_iter step) as [n|];
    try discriminate.
  - destruct (GetNet ws0 cn) as [cnet|]; [|discriminate].
    destruct (external_output cnet) as [|out [|]]; try discriminate.
    intros [= <-] i. apply respects_same. intros ws.
    rewrite criteria_test_state. reflexivity.
  - intros [= <-] i. apply respects_ret.
  - intros [= <-] i. apply respects_ret.
Qed.

Lemma respects_Reporter_start step : respects R (Reporter_start step).
Proof.
  intros ws. unfold Reporter_start.
  destruct (report_net step) as [rn|]; [|apply R_refl].
  destruct (report_interval step); [|apply R_refl].
  destruct (net_map_ ws !! rn) as [q|] eqn:E; cbn; [apply R_refl|].
  apply R_null, E.
Qed.

Lemma respects_Reporter_join r : respects R (Reporter_join r).
Proof.
  apply respects_same. intros ws. unfold Reporter_join.
  destruct r as [[rn [net|]]|]; try reflexivity.
  destruct (Run net (blobs ws)). reflexivity.
Qed.

Lemma respects_scoped r body : respects R body -> respects R (scoped r body).
Proof.
  intros Hb ws. unfold scoped. specialize (Hb ws).
  destruct (body ws) as [[b|[]| |] w]; cbn in *; auto;
    pose proof (respects_Reporter_join r w) as Hj;
    destruct (Reporter_join r w) as [[u|e| |] w']; cbn in *;
    eapply R_trans; eauto.
Qed.

Lemma respects_for_loop sc body :
  (forall i, respects R (sc i)) ->
  (forall i, respects R (body i)) ->
  forall fuel iter, respects R (for_loop fuel sc body iter).
Proof.
  intros Hsc Hbody. induction fuel as [|fuel IH]; intros iter.
  - intros ws. apply R_refl.
  - cbn [for_loop]. apply respects_bind; [apply Hsc|].
    intros [|]; [|apply respects_ret].
    apply respects_bind; [apply Hbody|]. intros [|]; [|apply respects_ret].
    destruct (iter <? INT_MAX); [apply IH|]. intros ws. apply R_refl.
Qed.

Lemma respects_worker rec ext :
  (forall s e, respects R (rec s e)) ->
  forall substeps got_failure,
    respects R (worker rec substeps ext got_failure).
Proof.
  intros Hrec. induction substeps as [|s rest IH]; intros got_failure.
  - apply respects_ret.
  - cbn [worker]. destruct got_failure; [apply respects_ret|].
    apply respects_bind; [apply Hrec|]. intros ok. apply IH.
Qed.

Lemma respects_step_body rec fuel step ext :
  (forall s e, respects R (rec s e)) ->
  respects R (step_body rec fuel step ext).
Proof.
  intros Hrec ws. unfold step_body.
  destruct (getContinuationTest ws step) as [test|e| |] eqn:Et;
    try apply R_refl.
  assert (Hsc : forall i, respects R (combined ext test i)).
  { intros i. unfold combined. destruct (ext i); [|apply respects_ret].
    eapply respects_test; eauto. }
  destruct (negb _).
  - apply respects_for_loop; [exact Hsc|]. intros _.
    unfold substep_round. destruct (_ || _).
    + apply respects_bind; [apply respects_worker, Hrec|].
      intros; apply respects_ret.
    + intros w. apply R_refl.
  - destruct (collect_networks _ _) as [networks|]; [|apply R_refl].
    apply respects_for_loop; [exact Hsc|].
    intros _. apply respects_run_networks.
Qed.

Lemma respects_ExecuteStepRecursive fuel :
  forall step ext, respects R (ExecuteStepRecursive fuel step ext).
Proof.
  induction fuel as [|fuel IH]; intros step ext.
  - intros ws. apply R_refl.
  - cbn [ExecuteStepRecursive]. apply respects_bind.
    + intros ws. apply R_refl.
    + intros _. destruct (negb _); [apply respects_ret|].
      apply respects_bind; [apply respects_Reporter_start|]. intros r.
      apply respects_scoped, respects_step_body, IH.
Qed.

Lemma respects_run_steps fuel ext steps :
  respects R (run_steps fuel steps ext).
Proof.
  induction steps as [|s rest IH]; [apply respects_ret|].
  cbn [run_steps]. apply respects_bind; [apply respects_ExecuteStepRecursive|].
  intros [|]; [exact IH|apply respects_ret].
Qed.

End RegistryRelation.

Lemma only_null_added_refl m : only_null_added m m.
Proof. intros k. left. reflexivity. Qed.

Lemma only_null_added_trans m1 m2 m3 :
  only_null_added m1 m2 -> only_null_added m2 m3 -> only_null_added m1 m3.
Proof.
  intros H12 H23 k. destruct (H12 k) as [E12|[E1 E2]], (H23 k) as [E23|[E2' E3]].
  - left. congruence.
  - right. split; congruence.
  - right. split; congruence.
  - congruence.
Qed.

Lemma only_null_added_insert (m : gmap string (option NetBase)) k :
  m !! k = None -> only_null_added m (<[k := None]> m).
Proof.
  intros E k'. destruct (decide (k = k')) as [<-|Hne].
  - right. rewrite lookup_insert_eq. auto.
  - left. apply lookup_insert_ne, Hne.
Qed.

Lemma only_null_added_GetNet ws ws' :
  only_null_added (net_map_ ws) (net_map_ ws') ->
  forall k, GetNet ws' k = GetNet ws k.
Proof.
  intros H k. unfold GetNet. destruct (H k) as [->|[-> ->]]; reflexivity.
Qed.

(** X18: executing a step changes the registry in one way at most: a
    name that was absent may end up with a null entry (the report net
    that was not found).  No entry is removed or replaced and no net is
    registered, so [GetNet] answers after the step as it did before. *)
Theorem X18_step_execution_and_the_registry fuel step ext ws :
  only_null_added (net_map_ ws)
                  (net_map_ (snd (ExecuteStepRecursive fuel step ext ws)))
  /\ forall k,
      GetNet (snd (ExecuteStepRecursive fuel step ext ws)) k = GetNet ws k.
Proof.
  assert (H : only_null_added
                (net_map_ ws)
                (net_map_ (snd (ExecuteStepRecursive fuel step ext ws)))).
  { apply (respects_ExecuteStepRecursive only_null_added
             only_null_added_refl only_null_added_trans
             only_null_added_insert). }
  split; [exact H|]. apply only_null_added_GetNet, H.
Qed.

(** ** Running a plan *)

Lemma CreateNet_history construct net_def ws :
  history (snd (CreateNet construct net_def ws)) = history ws.
Proof.
  destruct (net_name net_def) as [n|] eqn:Hn.
  - rewrite (CreateNet_named _ _ _ _ Hn).
    destruct (construct net_def (blobs ws)) as [[net|] b];
      [destruct (Verify net)|]; reflexivity.
  - unfold CreateNet. rewrite Hn. reflexivity.
Qed.

Lemma create_nets_history construct defs :
  forall ws, history (snd (create_nets construct defs ws)) = history ws.
Proof.
  induction defs as [|d rest IH]; intros ws; [reflexivity|].
  cbn [create_nets]. unfold bind.
  pose proof (CreateNet_history construct d ws) as H.
  destruct (CreateNet construct d ws) as [[[net|]|e| |] w]; cbn in *;
    try exact H.
  rewrite IH. exact H.
Qed.

Lemma create_nets_fails construct defs d0 :
  (forall d, In d defs -> exists n, net_name d = Some n) ->
  In d0 defs ->
  (forall b, match fst (construct d0 b) with
             | Some net => Verify net = false
             | None => True
             end) ->
  forall ws, fst (create_nets construct defs ws) = Returns false.
Proof.
  intros Hnamed Hin Hbad.
  induction defs as [|d rest IH]; intros ws; [destruct Hin|].
  cbn [create_nets]. unfold bind.
  destruct (Hnamed d (or_introl eq_refl)) as [n Hn].
  rewrite (CreateNet_named _ _ _ _ Hn).
  destruct (construct d (blobs ws)) as [[net|] b] eqn:Ec;
    [destruct (Verify net) eqn:Hv|]; cbn; try reflexivity.
  destruct Hin as [->|Hin].
  - specialize (Hbad (blobs ws)). rewrite Ec in Hbad. cbn in Hbad. congruence.
  - apply IH; [|exact Hin]. intros d' Hd'. apply Hnamed. right. exact Hd'.
Qed.

(** X19: when the constructor cannot make one of the nets of a plan
    (null, or a net that fails [Verify]), [RunPlan] returns [false]
    before any step is entered: the history is the caller's.  The plan
    has at least one step and its definitions are all named. *)
Theorem X19_RunPlan_stops_at_net_creation construct fuel plan ext ws d0 :
  execution_step plan <> [] ->
  (forall d, In d (plan_network plan) -> exists n, net_name d = Some n) ->
  In d0 (plan_network plan) ->
  (forall b, match fst (construct d0 b) with
             | Some net => Verify net = false
             | None => True
             end) ->
  fst (RunPlan construct fuel plan ext ws) = Returns false
  /\ history (snd (RunPlan construct fuel plan ext ws)) = history ws.
Proof.
  intros Hsteps Hnamed Hin Hbad. unfold RunPlan.
  destruct (execution_step plan) as [|s0 ss]; [congruence|].
  cbn [length Nat.eqb]. unfold bind.
  pose proof (create_nets_fails construct _ d0 Hnamed Hin Hbad ws) as Hf.
  pose proof (create_nets_history construct (plan_network plan) ws) as Hh.
  destruct (create_nets construct (plan_network plan) ws) as [r w].
  cbn in Hf, Hh. subst r. cbn. auto.
Qed.

Lemma X19_witness :
  let plan :=
    {| plan_network := [Fixture.def "a" "good"; Fixture.def "b" "unverified";
                        Fixture.def "c" "good"];
       execution_step := [Sample.leaf "s" ["a"%string]] |} in
  fst (RunPlan Fixture.build 5 plan Sample.always Sample.ws_empty)
  = Returns false
  /\ history (snd (RunPlan Fixture.build 5 plan Sample.always Sample.ws_empty))
     = history Sample.ws_empty.
Proof.
  intros plan.
  apply (X19_RunPlan_stops_at_net_creation Fixture.build 5 plan Sample.always
           Sample.ws_empty (Fixture.def "b" "unverified")).
  - discriminate.
  - intros d [<-|[<-|[<-|[]]]]; eexists; reflexivity.
  - cbn. auto.
  - intros b. reflexivity.
Defined.

Lemma create_nets_keeps_verified construct defs n :
  forall ws ws',
    create_nets construct defs ws = (Returns true, ws') ->
    (exists net, GetNet ws n = Some net /\ Verify net = true) ->
    exists net, GetNet ws' n = Some net /\ Verify net = true.
Proof.
  induction defs as [|d rest IH]; intros ws ws' Hc Hv.
  - cbn in Hc. injection Hc as <-. exact Hv.
  - cbn [create_nets] in Hc. unfold bind in Hc.
    destruct (net_name d) as [nd|] eqn:Hn.
    + pose proof (CreateNet_frame construct d ws n) as Hframe.
      destruct (CreateNet_agrees construct d nd ws Hn) as (p & Hp & Hg & Hver).
      destruct (CreateNet construct d ws) as [r w]. cbn in Hp, Hg, Hframe.
      subst r. destruct p as [net|]; [|discriminate].
      apply (IH _ _ Hc).
      destruct (decide (nd = n)) as [<-|Hne].
      * exists net. split; [exact Hg|]. apply Hver. reflexivity.
      * destruct Hv as (net0 & Hg0 & Hv0). exists net0. split; [|exact Hv0].
        unfold GetNet in *. rewrite Hframe by congruence. exact Hg0.
    + unfold CreateNet in Hc. rewrite Hn in Hc. discriminate.
Qed.

Lemma create_nets_registers construct defs :
  forall ws ws',
    create_nets construct defs ws = (Returns true, ws') ->
    forall d, In d defs ->
      exists n net,
        net_name d = Some n /\ GetNet ws' n = Some net /\ Verify net = true.
Proof.
  induction defs as [|d0 rest IH]; intros ws ws' Hc d Hin; [destruct Hin|].
  cbn [create_nets] in Hc. unfold bind in Hc.
  destruct (net_name d0) as [nd|] eqn:Hn.
  - destruct (CreateNet_agrees construct d0 nd ws Hn) as (p & Hp & Hg & Hver).
    destruct (CreateNet construct d0 ws) as [r w]. cbn in Hp, Hg.
    subst r. destruct p as [net|]; [|discriminate].
    destruct Hin as [<-|Hin].
    + destruct (create_nets_keeps_verified construct rest nd w ws' Hc)
        as (net' & Hg' & Hv'); [exists net; auto|].
      exists nd, net'. auto.
    + apply (IH _ _ Hc d Hin).
  - unfold CreateNet in Hc. rewrite Hn in Hc. discriminate.
Qed.

(** X20: when [RunPlan] returns [true] for a plan with at least one
    step, every net definition of the plan is registered at the end: it
    has a name, and [GetNet] finds a verified net under that name (the
    one built last, if the plan defines the name more than once). *)
Theorem X20_RunPlan_success_registers_nets construct fuel plan ext ws :
  execution_step plan <> [] ->
  fst (RunPlan construct fuel plan ext ws) = Returns true ->
  forall d, In d (plan_network plan) ->
    exists n net,
      net_name d = Some n
      /\ GetNet (snd (RunPlan construct fuel plan ext ws)) n = Some net
      /\ Verify net = true.
Proof.
  intros Hsteps Hret d Hin. unfold RunPlan in *.
  destruct (execution_step plan) as [|s0 ss] eqn:Es; [congruence|].
  cbn [length Nat.eqb] in *. unfold bind in *.
  destruct (create_nets construct (plan_network plan) ws) as [r w] eqn:Ec.
  destruct r as [[|]|e| |]; try discriminate.
  destruct (create_nets_registers construct _ _ _ Ec d Hin)
    as (n & net & Hn & Hg & Hv).
  exists n, net. repeat split; try assumption.
  rewrite <- Hg. apply only_null_added_GetNet.
  apply (respects_run_steps only_null_added
           only_null_added_refl only_null_added_trans only_null_added_insert).
Qed.

Lemma X20_witness :
  let plan :=
    {| plan_network := [Fixture.def "a" "bad"; Fixture.def "a" "good"];
       execution_step := [Sample.leaf "s" ["a"%string]] |} in
  exists n net,
    net_name (Fixture.def "a" "bad") = Some n
    /\ GetNet (snd (RunPlan Fixture.build 5 plan Sample.always
                            Sample.ws_empty)) n = Some net
    /\ Verify net = true.
Proof.
  intros plan.
  apply (X20_RunPlan_success_registers_nets Fixture.build 5 plan Sample.always
           Sample.ws_empty).
  - discriminate.
  - vm_compute. reflexivity.
  - cbn. auto.
Defined.

Lemma run_steps_prefix fuel ext pre rest ws ws1 :
  all_return_true (ExecuteStepRecursive fuel) ext pre ws ws1 ->
  run_steps fuel (pre ++ rest) ext ws = run_steps fuel rest ext ws1.
Proof.
  induction 1 as [ws|s pre ws ws1 ws2 Hs _ IH]; [reflexivity|].
  cbn [app run_steps]. unfold bind at 1. rewrite Hs. exact IH.
Qed.

(** X21: [RunPlan] runs the steps of a plan in order, each in the
    workspace the one before it left.  When all of them return [true]
    the plan returns [true]; at the first step that returns [false] the
    plan returns [false] in the workspace that step left, so no later
    step is entered. *)
Theorem X21_RunPlan_steps_in_order construct fuel plan ext ws ws1 :
  execution_step plan <> [] ->
  create_nets construct (plan_network plan) ws = (Returns true, ws1) ->
  (forall ws2,
      all_return_true (ExecuteStepRecursive fuel) ext (execution_step plan)
                      ws1 ws2 ->
      RunPlan construct fuel plan ext ws = (Returns true, ws2))
  /\ (forall pre s post ws2 ws3,
         execution_step plan = pre ++ s :: post ->
         all_return_true (ExecuteStepRecursive fuel) ext pre ws1 ws2 ->
         ExecuteStepRecursive fuel s ext ws2 = (Returns false, ws3) ->
         RunPlan construct fuel plan ext ws = (Returns false, ws3)).
Proof.
  intros Hsteps Hc.
  assert (Hrun : RunPlan construct fuel plan ext ws
                 = run_steps fuel (execution_step plan) ext ws1).
  { unfold RunPlan. destruct (execution_step plan); [congruence|].
    cbn [length Nat.eqb]. unfold bind. rewrite Hc. reflexivity. }
  rewrite Hrun. split.
  - intros ws2 Hall. rewrite <- (app_nil_r (execution_step plan)).
    rewrite (run_steps_prefix _ _ _ [] _ _ Hall). reflexivity.
  - intros pre s post ws2 ws3 -> Hpre Hs.
    rewrite (run_steps_prefix _ _ _ (s :: post) _ _ Hpre).
    cbn [run_steps]. unfold bind. rewrite Hs. reflexivity.
Qed.

Lemma X21_witness :
  let plan :=
    {| plan_network := [Fixture.def "a" "good"; Fixture.def "b" "bad"];
       execution_step :=
         [Sample.leaf "s1" ["a"%string]; Sample.leaf "s2" ["b"%string];
          Sample.leaf "s3" ["a"%string]] |} in
  exists ws',
    RunPlan Fixture.build 3 plan Sample.always Sample.ws_empty
    = (Returns false, ws')
    /\ history ws'
       = [StepEntered "s1"; NetRun "a"; StepEntered "s2"; NetRun "b"]%string.
Proof.
  intros plan.
  destruct (X21_RunPlan_steps_in_order Fixture.build 3 plan Sample.always
              Sample.ws_empty
              (snd (create_nets Fixture.build (plan_network plan)
                                Sample.ws_empty)))
    as [_ H].
  - discriminate.
  - vm_compute. reflexivity.
  - eexists. split.
    + eapply (H [Sample.leaf "s1" ["a"%string]]
                (Sample.leaf "s2" ["b"%string])
                [Sample.leaf "s3" ["a"%string]]).
      * reflexivity.
      * eapply art_cons; [vm_compute; reflexivity | apply art_nil].
      * vm_compute. reflexivity.
    + vm_compute. reflexivity.
Defined.

(** ** More on the head of a step *)

Lemma Reporter_start_GetNet step ws r ws1 k :
  Reporter_start step ws = (r, ws1) ->
  GetNet ws1 k = GetNet ws k
  /\ blobs ws1 = blobs ws
  /\ net_runs (history ws1) = net_runs (history ws).
Proof.
  unfold Reporter_start, GetNet.
  destruct (report_net step) as [rn|]; [|intros [= <- <-]; auto].
  destruct (report_interval step); [|intros [= <- <-]; auto].
  destruct (net_map_ ws !! rn) as [q|] eqn:E; intros [= <- <-]; cbn;
    rewrite net_runs_app, app_nil_r; repeat split.
  destruct (decide (rn = k)) as [<-|Hne].
  - rewrite lookup_insert_eq, E. reflexivity.
  - rewrite lookup_insert_ne by exact Hne. reflexivity.
Qed.



Lemma missing_interval_throws fuel step ext ws rn :
  shape_ok step = true ->
  report_net step = Some rn ->
  report_interval step = None ->
  ExecuteStepRecursive (S fuel) step ext ws
  = (Dies EnforceNotMet, record (StepEntered (name step)) ws).
Proof.
  intros Hshape Hrn Hitv. rewrite ExecuteStepRecursive_unfold. cbn zeta.
  unfold shape_ok in Hshape. rewrite Hshape. cbn [negb].
  unfold bind, Reporter_start. rewrite Hrn, Hitv. reflexivity.
Qed.

(** X23: a step that names a report net but gives no interval ends in
    the exception of [CAFFE_ENFORCE] as soon as it has passed the shape
    test: no reporter is started, nothing is run, and the registry is
    not touched. *)
Theorem X23_report_net_needs_interval fuel step ext ws rn :
  shape_ok step = true ->
  report_net step = Some rn ->
  report_interval step = None ->
  ExecuteStepRecursive (S fuel) step ext ws
  = (Dies EnforceNotMet, record (StepEntered (name step)) ws).
Proof. apply missing_interval_throws. Qed.

Lemma X23_witness :
  ExecuteStepRecursive 1
    (MkExecutionStep "s" [] ["a"%string] None None (Some "a"%string) None false)
    Sample.always Sample.ws_ab
  = (Dies EnforceNotMet, record (StepEntered "s") Sample.ws_ab).
Proof.
  apply (X23_report_net_needs_interval 0
           (MkExecutionStep "s" [] ["a"%string] None None (Some "a"%string)
                            None false)
           Sample.always Sample.ws_ab "a"%string); reflexivity.
Defined.

(** X24: the outcome of the criteria net's own [Run] is not looked at:
    when the net reports failure but its output blob holds one [true],
    the continuation test of the step answers [true]. *)
Theorem X24_criteria_run_outcome_ignored ws step cn cnet out test i w b :
  criteria_network step = Some cn ->
  num_iter step = None ->
  GetNet ws cn = Some cnet ->
  external_output cnet = [out] ->
  getContinuationTest ws step = Returns test ->
  Run cnet (blobs w) = (false, b) ->
  GetBlob b out = Some (TensorBlob (BoolTensor [true])) ->
  test i w = (Returns true, after_runs w b [cn]).
Proof.
  intros Hc Hn Hg Ho Ht Hrun Hblob.
  rewrite (getContinuationTest_criteria _ _ _ _ _ Hc Hn Hg Ho) in Ht.
  injection Ht as <-.
  rewrite (criteria_test_returns cn cnet out i w true).
  - rewrite Hrun. reflexivity.
  - unfold criteria_says. rewrite Hrun. cbn [snd]. rewrite Hblob. reflexivity.
Qed.

Lemma X24_witness :
  criteria_test "crit" Fixture.failing_go "go" 0 Fixture.ws_failing_go
  = (Returns true,
     after_runs Fixture.ws_failing_go
                (snd (Run Fixture.failing_go (blobs Fixture.ws_failing_go)))
                ["crit"%string]).
Proof.
  apply (X24_criteria_run_outcome_ignored Fixture.ws_failing_go
           (Sample.while_crit ["a"%string]) "crit"%string Fixture.failing_go
           "go"%string).
  - reflexivity.
  - reflexivity.
  - vm_compute. reflexivity.
  - reflexivity.
  - vm_compute. reflexivity.
  - reflexivity.
  - vm_compute. reflexivity.
Defined.

(** ** Exceptions and sequential substeps *)

Lemma worker_first_throw rec ext s rest ws ws' f :
  rec s ext ws = (Dies f, ws') ->
  worker rec (s :: rest) ext false ws = (Dies f, ws').
Proof.
  intros Hs. cbn [worker negb andb]. unfold bind at 1.
  change (fun iter : Z => ext iter) with ext. rewrite Hs. reflexivity.
Qed.

Lemma for_loop_dies_after sc body n fuel ws wsn ws1 ws2 f :
  completes sc body n 0 ws wsn ->
  sc (Z.of_nat n) wsn = (Returns true, ws1) ->
  body (Z.of_nat n) ws1 = (Dies f, ws2) ->
  (n < fuel)%nat ->
  for_loop fuel sc body 0 ws = (Dies f, ws2).
Proof.
  intros Hc Hs Hb Hf. replace fuel with (n + S (fuel - S n))%nat by lia.
  rewrite (for_loop_completes _ _ _ _ _ _ Hc).
  cbn [for_loop]. unfold bind. rewrite Z.add_0_l, Hs, Hb. reflexivity.
Qed.

Lemma scoped_throws r body ws ws' :
  joinable r = true ->
  body ws = (Dies EnforceNotMet, ws') ->
  scoped r body ws = (Dies EnforceNotMet, joined r ws').
Proof.
  intros Hj Hb. unfold scoped, joined. rewrite Hb.
  destruct r as [[rn [net|]]|]; cbn in *; try discriminate; try reflexivity.
  destruct (Run net (blobs ws')) as [ok b']. reflexivity.
Qed.

(** X25: an exception raised in a substep is not turned into a returned
    [false].  In a step with sequentially executed substeps, when the
    substeps before [sk] return [true] and [sk] names a report net
    without an interval, the step ends in the exception of
    [CAFFE_ENFORCE], in the workspace in which [sk] was entered: the
    substeps after [sk] are not entered.  The step itself has no report
    net. *)
Theorem X25_substep_exception_propagates
    fuel step ext ws test J pre sk post wJ w1 wk rn :
  network step = [] ->
  concurrent_substeps step = false \/ length (substep step) = 1%nat ->
  report_net step = None ->
  substep step = pre ++ sk :: post ->
  getContinuationTest ws step = Returns test ->
  completes (combined ext test)
            (fun _ => substep_round (ExecuteStepRecursive (S fuel)) step ext)
            J 0 (record (StepEntered (name step)) ws) wJ ->
  combined ext test (Z.of_nat J) wJ = (Returns true, w1) ->
  all_return_true (ExecuteStepRecursive (S fuel)) ext pre w1 wk ->
  shape_ok sk = true ->
  report_net sk = Some rn ->
  report_interval sk = None ->
  (J <= fuel)%nat ->
  ExecuteStepRecursive (S (S fuel)) step ext ws
  = (Dies EnforceNotMet, record (StepEntered (name sk)) wk).
Proof.
  intros Hnet Hseq Hrep Hsplit Htest Hc Hgo Hpre Hshape_k Hrn Hitv Hfuel.
  assert (Hshape : shape_ok step = true).
  { unfold shape_ok. rewrite Hnet. cbn. apply orb_true_r. }
  rewrite exec_no_report by assumption.
  rewrite step_body_rounds.
  rewrite (getContinuationTest_net_map
               ws (record (StepEntered (name step)) ws) step eq_refl), Htest.
  unfold rounds.
  assert (negb (length (substep step) =? 0)%nat = true) as ->.
  { rewrite Hsplit. destruct pre; reflexivity. }
  eapply for_loop_dies_after; eauto; [|lia].
  rewrite (sequential_round _ _ _ Hseq). unfold bind.
  rewrite Hsplit.
  rewrite (worker_all_true _ _ _ (sk :: post) _ _ Hpre).
  rewrite (worker_first_throw _ _ _ _ _ _ EnforceNotMet
             (missing_interval_throws fuel sk ext wk rn Hshape_k Hrn Hitv)).
  reflexivity.
Qed.

Lemma X25_witness :
  exists ws',
    ExecuteStepRecursive 4 Fixture.seq_throw Sample.always Sample.ws_ab
    = (Dies EnforceNotMet, ws')
    /\ history ws'
       = [StepEntered "seq"; StepEntered "s1"; NetRun "a"; StepEntered "s2"]%string.
Proof.
  eexists. split.
  - eapply (X25_substep_exception_propagates 2 Fixture.seq_throw Sample.always
              Sample.ws_ab _ 0%nat [Sample.leaf "s1" ["a"%string]] _
              [Sample.leaf "s3" ["a"%string]]).
    + reflexivity.
    + left. reflexivity.
    + reflexivity.
    + reflexivity.
    + reflexivity.
    + apply completes_0.
    + vm_compute. reflexivity.
    + eapply art_cons; [vm_compute; reflexivity | apply art_nil].
    + reflexivity.
    + reflexivity.
    + reflexivity.
    + lia.
  - vm_compute. reflexivity.
Defined.

(** ** What a leaf step can have run *)

Lemma collect_networks_names m names :
  forall l, collect_networks m names = Some l -> map fst l = names.
Proof.
  induction names as [|n names IH]; intros l; cbn.
  - intros [= <-]. reflexivity.
  - destruct (m !! n) as [p|]; [|discriminate].
    destruct (collect_networks m names) as [l'|]; [|discriminate].
    intros [= <-]. cbn. rewrite (IH l' eq_refl). reflexivity.
Qed.

Lemma run_networks_prefix networks :
  forall ws,
    exists l,
      history (snd (run_networks networks ws)) = history ws ++ map NetRun l
      /\ l `prefix_of` map fst networks
      /\ (fst (run_networks networks ws) = Returns true ->
          l = map fst networks).
Proof.
  induction networks as [|[key p] rest IH]; intros ws.
  - exists []. cbn. rewrite app_nil_r. auto using prefix_nil.
  - cbn [run_networks map fst]. unfold bind, run_ptr.
    destruct p as [net|].
    + destruct (Run net (blobs ws)) as [[|] b]; cbn.
      * destruct (IH (record (NetRun key) (set_blobs b ws)))
          as (l & Hh & Hp & Hall).
        exists (key :: l). cbn in *. rewrite Hh, <- app_assoc.
        repeat split; [apply prefix_cons, Hp|].
        intros H. rewrite (Hall H). reflexivity.
      * exists [key]. repeat split; [|discriminate].
        apply prefix_cons, prefix_nil.
    + exists []. cbn. rewrite app_nil_r.
      repeat split; [apply prefix_nil|discriminate].
Qed.

Lemma leaf_loop_prefix ext N networks fuel :
  forall iter ws,
    exists l,
      history (snd (for_loop fuel (combined ext (fun i => ret (i <? N)))
                             (fun _ => run_networks networks) iter ws))
      = history ws ++ map NetRun l
      /\ l `prefix_of`
         concat (replicate (Z.to_nat (N - iter)) (map fst networks)).
Proof.
  induction fuel as [|fuel IH]; intros iter ws.
  - exists []. cbn. rewrite app_nil_r. auto using prefix_nil.
  - cbn [for_loop]. unfold bind at 1. unfold combined at 1, ret at 1.
    destruct (ext iter && (iter <? N)) eqn:Ec.
    + apply andb_prop in Ec as [He Hlt]. rewrite He, Hlt.
      apply Z.ltb_lt in Hlt.
      replace (Z.to_nat (N - iter)) with (S (Z.to_nat (N - (iter + 1))))
        by lia.
      cbn [replicate concat]. unfold bind at 1.
      destruct (run_networks_prefix networks ws) as (l1 & Hh1 & Hp1 & Hall1).
      destruct (run_networks networks ws) as [[[|]|e| |] w1]; cbn in *;
        try (exists l1; split; [exact Hh1|apply prefix_app_r, Hp1]).
      rewrite (Hall1 eq_refl) in Hh1.
      destruct (iter <? INT_MAX).
      * destruct (IH (iter + 1) w1) as (l2 & Hh2 & Hp2).
        exists (map fst networks ++ l2). rewrite Hh2, Hh1, map_app, app_assoc.
        split; [reflexivity|]. apply prefix_app, Hp2.
      * exists (map fst networks). split; [exact Hh1|].
        apply prefix_app_r. reflexivity.
    + exists []. rewrite app_nil_r. split; [|apply prefix_nil].
      destruct (ext iter); cbn in *; [rewrite Ec|]; reflexivity.
Qed.

Lemma scoped_net_runs r body ws :
  net_runs (history (snd (scoped r body ws)))
  = net_runs (history (snd (body ws))).
Proof.
  unfold scoped. destruct (body ws) as [[b|[]| |] w]; cbn; try reflexivity;
    destruct r as [[rn [net|]]|]; cbn; try reflexivity;
    destruct (Run net (blobs w)) as [ok b']; cbn;
    rewrite net_runs_app, app_nil_r; reflexivity.
Qed.

(** X26: whatever the caller's predicate, the registry, the reporter and
    the outcome, the nets that the executing thread has run for a leaf
    step with a fixed count are an initial segment of its networks
    repeated [N] times, [N] being the [int] that the executor makes of
    [num_iter] (1 without one, no pass at all when it is negative):
    never more than [N] passes, and never a network out of its turn. *)
Theorem X26_leaf_runs_are_a_prefix fuel step ext ws :
  substep step = [] ->
  criteria_network step = None ->
  exists l,
    net_runs (history (snd (ExecuteStepRecursive fuel step ext ws)))
    = net_runs (history ws) ++ l
    /\ l `prefix_of`
       concat (replicate (Z.to_nat (iterations step)) (network step)).
Proof.
  intros Hsub Hcrit. destruct fuel as [|fuel].
  - exists []. cbn. rewrite app_nil_r. auto using prefix_nil.
  - rewrite ExecuteStepRecursive_unfold. cbn zeta. rewrite Hsub.
    cbn [length Nat.eqb orb negb]. unfold bind.
    destruct (Reporter_start step (record (StepEntered (name step)) ws))
      as [r ws1] eqn:Es.
    destruct (Reporter_start_GetNet _ _ _ _ EmptyString Es) as (_ & _ & Hh).
    cbn in Hh. rewrite net_runs_app, app_nil_r in Hh.
    destruct r as [rep|e| |].
    2-4: exists []; cbn; rewrite app_nil_r; split; [exact Hh|apply prefix_nil].
    rewrite scoped_net_runs. unfold step_body.
    rewrite getContinuationTest_fixed by exact Hcrit.
    rewrite Hsub. cbn [length Nat.eqb negb].
    destruct (collect_networks (net_map_ ws1) (network step)) as [networks|]
      eqn:Ecol.
    + destruct (leaf_loop_prefix ext (iterations step) networks fuel 0 ws1)
        as (l & Hl & Hp).
      exists l. rewrite Hl, net_runs_app, net_runs_NetRun, Hh.
      split; [reflexivity|].
      rewrite (collect_networks_names _ _ _ Ecol), Z.sub_0_r in Hp. exact Hp.
    + exists []. cbn. rewrite app_nil_r. split; [exact Hh|apply prefix_nil].
Qed.

Lemma X26_witness :
  exists l,
    net_runs (history (snd (ExecuteStepRecursive 9
                (MkExecutionStep "s" [] ["a"; "b"; "a"]%string (Some 3) None
                                 None None false)
                Sample.always Sample.ws_ab)))
    = net_runs (history Sample.ws_ab) ++ l
    /\ l `prefix_of`
       concat (replicate 3 ["a"; "b"; "a"]%string).
Proof.
  apply (X26_leaf_runs_are_a_prefix 9
           (MkExecutionStep "s" [] ["a"; "b"; "a"]%string (Some 3) None
                            None None false)
           Sample.always Sample.ws_ab); reflexivity.
Defined.

(** ** The names a plan does not define *)

Lemma create_nets_frame construct defs n' :
  (forall d, In d defs -> net_name d <> Some n') ->
  forall ws,
    net_map_ (snd (create_nets construct defs ws)) !! n' = net_map_ ws !! n'.
Proof.
  induction defs as [|d rest IH]; intros Hn ws; [reflexivity|].
  cbn [create_nets]. unfold bind.
  pose proof (CreateNet_frame construct d ws n' (Hn d (or_introl eq_refl)))
    as Hf.
  destruct (CreateNet construct d ws) as [[[net|]|e| |] w]; cbn in *;
    try exact Hf.
  rewrite IH; [exact Hf|]. intros d' Hd'. apply Hn. right. exact Hd'.
Qed.

(** X27: [RunPlan] leaves alone the names its plan does not define: for
    such a name [GetNet] answers after the plan as it did before,
    whatever the outcome of the plan. *)
Theorem X27_RunPlan_other_names construct fuel plan ext ws n' :
  (forall d, In d (plan_network plan) -> net_name d <> Some n') ->
  GetNet (snd (RunPlan construct fuel plan ext ws)) n' = GetNet ws n'.
Proof.
  intros Hn. unfold RunPlan.
  destruct (length (execution_step plan) =? 0)%nat; [reflexivity|].
  unfold bind.
  pose proof (create_nets_frame construct _ n' Hn ws) as Hf.
  destruct (create_nets construct (plan_network plan) ws) as [r w].
  cbn in Hf.
  assert (Hw : GetNet w n' = GetNet ws n') by (unfold GetNet; rewrite Hf; reflexivity).
  destruct r as [[|]|e| |]; cbn; try exact Hw.
  rewrite <- Hw. apply only_null_added_GetNet.
  apply (respects_run_steps only_null_added
           only_null_added_refl only_null_added_trans only_null_added_insert).
Qed.

Lemma X27_witness :
  GetNet (snd (RunPlan Sample.build 5 Sample.plan_r Sample.always Sample.ws_ab))
         "b"
  = GetNet Sample.ws_ab "b".
Proof.
  apply X27_RunPlan_other_names.
  intros d [<-|[]]. discriminate.
Defined.

(** ** One substep *)

Lemma flag_irrelevant fuel s1 s2 ext ws :
  name s1 = name s2 ->
  substep s1 = substep s2 ->
  network s1 = network s2 ->
  num_iter s1 = num_iter s2 ->
  criteria_network s1 = criteria_network s2 ->
  report_net s1 = report_net s2 ->
  report_interval s1 = report_interval s2 ->
  (length (substep s2) <= 1)%nat ->
  ExecuteStepRecursive fuel s1 ext ws = ExecuteStepRecursive fuel s2 ext ws.
Proof.
  intros Hname Hsub Hnet Hnum Hcrit Hrn Hri Hlen.
  destruct fuel as [|fuel]; [reflexivity|].
  rewrite !ExecuteStepRecursive_unfold. cbn zeta.
  unfold Reporter_start, step_body, getContinuationTest, substep_round.
  rewrite Hname, Hsub, Hnet, Hnum, Hcrit, Hrn, Hri.
  apply Nat.leb_le in Hlen. rewrite Hlen, !orb_true_r. reflexivity.
Qed.

(** X28: with at most one substep the flag [concurrent_substeps] makes
    no difference: the step is executed by the calling thread either
    way, with the same outcome and the same workspace. *)
Theorem X28_single_substep_ignores_flag fuel step ext ws c :
  (length (substep step) <= 1)%nat ->
  ExecuteStepRecursive fuel (set_concurrent c step) ext ws
  = ExecuteStepRecursive fuel (set_concurrent false step) ext ws.
Proof. intros Hlen. apply flag_irrelevant; try reflexivity. exact Hlen. Qed.

Lemma X28_witness :
  let step :=
    MkExecutionStep "one" [Sample.leaf "s" ["a"; "b"]%string] [] (Some 2) None
                    None None true in
  ExecuteStepRecursive 6 (set_concurrent true step) Sample.always Sample.ws_ab
  = ExecuteStepRecursive 6 (set_concurrent false step) Sample.always
                         Sample.ws_ab.
Proof.
  intros step. apply X28_single_substep_ignores_flag. cbn. lia.
Defined.

(** ** Instances *)

Lemma X3_witness :
  (exists b, fst (CreateBlob "z" Fixture.child) = Some b)
  /\ HasBlob (snd (CreateBlob "z" Fixture.child)) "z" = true
  /\ (HasBlob Fixture.child "z" = false ->
      fst (CreateBlob "z" Fixture.child) = Some OtherBlob).
Proof. apply X3_CreateBlob_returns_a_blob. Defined.

Lemma X12_witness :
  fst (DeleteNet "a" Sample.ws_ab) = Returns tt
  /\ GetNet (snd (DeleteNet "a" Sample.ws_ab)) "a" = None
  /\ (forall n', n' <> "a"%string ->
        net_map_ (snd (DeleteNet "a" Sample.ws_ab)) !! n'
        = net_map_ Sample.ws_ab !! n')
  /\ blobs (snd (DeleteNet "a" Sample.ws_ab)) = blobs Sample.ws_ab
  /\ history (snd (DeleteNet "a" Sample.ws_ab)) = history Sample.ws_ab
  /\ (net_map_ Sample.ws_ab !! "a"%string = None ->
      snd (DeleteNet "a" Sample.ws_ab) = Sample.ws_ab).
Proof. apply X12_DeleteNet_removes_one_name. Defined.
